(** * web-time-tracker: the session engine and the storage layer

    A shallow embedding of [src/background/services/TimeTracker.ts],
    [src/background/models/StorageManager.ts] and the event handlers of
    [BackgroundService].

    - JavaScript numbers are modelled as exact rationals extended with
      [NaN] and the two infinities (rounding of doubles is not modelled).
    - A string is the UTF-8 encoding of the JavaScript string.
    - An object read at a key that it does not own answers with the
      member of [Object.prototype] of that name, when there is one.
    - Every [async] method is a computation over a [Host] (what the
      browser supplies: storage faults, the two clocks, the URL parser and
      the ISO date formatter) and a [World] (the persisted object, how
      often the host was asked so far, and the writes that went through).  It ends in [Ok] or in [Throw].
    - [console.error] and [console.warn] have no effect on the model. *)

From Stdlib Require Import ZArith QArith Qcanon String Ascii List Bool Lia Lqa.
From stdpp Require Import base option list gmap strings.

Local Open Scope string_scope.

(** ** JavaScript numbers *)

Inductive number : Type :=
| NaN
| Infinity (negative : bool)
| Finite (q : Qc).

Module Num.

Definition ofZ (z : Z) : number := Finite (Qc_of_Z z).

Definition zero : number := ofZ 0.
Definition one : number := ofZ 1.

(** [a + b] *)
Definition add (a b : number) : number :=
  match a, b with
  | NaN, _ | _, NaN => NaN
  | Infinity s, Infinity t => if Bool.eqb s t then Infinity s else NaN
  | Infinity s, Finite _ | Finite _, Infinity s => Infinity s
  | Finite p, Finite q => Finite (p + q)%Qc
  end.

Definition opp (a : number) : number :=
  match a with
  | NaN => NaN
  | Infinity s => Infinity (negb s)
  | Finite q => Finite (- q)%Qc
  end.

(** [a - b] *)
Definition sub (a b : number) : number := add a (opp b).

(** [a < 0] *)
Definition ltZero (a : number) : bool :=
  match a with
  | NaN => false
  | Infinity s => s
  | Finite q => match (q ?= Qc_of_Z 0)%Qc with Lt => true | _ => false end
  end.

(** [Math.max(0, a)] *)
Definition max0 (a : number) : number :=
  match a with
  | NaN => NaN
  | Infinity true => zero
  | Infinity false => a
  | Finite _ => if ltZero a then zero else a
  end.

(** [Number.isInteger(a)] *)
Definition isInteger (a : number) : bool :=
  match a with
  | Finite q => Pos.eqb (Qden (this q)) 1
  | _ => false
  end.

(** The truth value of [a] in a condition: [0] and [NaN] are falsy. *)
Definition truthy (a : number) : bool :=
  match a with
  | NaN => false
  | Infinity _ => true
  | Finite q => negb (Z.eqb (Qnum (this q)) 0)
  end.

(** whether [a || b] takes [a], where [a] may be missing *)
Definition present (a : option number) : bool :=
  match a with
  | Some v => truthy v
  | None => false
  end.

(** [a || b] *)
Definition orDefault (a : option number) (b : number) : number :=
  match a with
  | Some v => if truthy v then v else b
  | None => b
  end.

(** [a || 0] *)
Definition orZero (a : option number) : number := orDefault a zero.

(** [a === b] *)
Definition strictEq (a b : number) : bool :=
  match a, b with
  | Finite p, Finite q => Qeq_bool (this p) (this q)
  | Infinity s, Infinity t => Bool.eqb s t
  | _, _ => false
  end.

End Num.

(** ** Strings *)

Module Str.

Definition bytes (codes : list nat) : string :=
  fold_right (fun n s => String (ascii_of_nat n) s) EmptyString codes.

(** The white space and line terminators that [trim] removes, in UTF-8:
    U+0009 to U+000D, U+0020, U+00A0, U+1680, U+2000 to U+200A, U+2028,
    U+2029, U+202F, U+205F, U+3000 and U+FEFF. *)
Definition whiteSpace : list string :=
  map bytes
    [[9]; [10]; [11]; [12]; [13]; [32]; [194; 160]; [225; 154; 128];
     [226; 128; 128]; [226; 128; 129]; [226; 128; 130]; [226; 128; 131];
     [226; 128; 132]; [226; 128; 133]; [226; 128; 134]; [226; 128; 135];
     [226; 128; 136]; [226; 128; 137]; [226; 128; 138]; [226; 128; 168];
     [226; 128; 169]; [226; 128; 175]; [226; 129; 159]; [227; 128; 128];
     [239; 187; 191]].

(** the number of bytes of the entry of [table] that [s] starts with, [0]
    when it starts with none *)
Definition spaceLength (table : list string) (s : string) : nat :=
  match List.find (fun e => String.prefix e s) table with
  | Some e => String.length e
  | None => 0
  end.

(** drops the entries of [table] that [s] starts with; [skip] counts the
    bytes of an entry just met that are still to be dropped *)
Fixpoint strip (table : list string) (skip : nat) (s : string) : string :=
  match s with
  | EmptyString => EmptyString
  | String c r =>
      match skip with
      | S k => strip table k r
      | O =>
          match spaceLength table s with
          | O => s
          | S k => strip table k r
          end
      end
  end.

Definition trimStart (s : string) : string := strip whiteSpace 0 s.

Definition trimEnd (s : string) : string :=
  String.rev (strip (map String.rev whiteSpace) 0 (String.rev s)).

Definition trim (s : string) : string := trimEnd (trimStart s).

Definition isEmpty (s : string) : bool :=
  match s with EmptyString => true | _ => false end.

(** [s.startsWith(p)] *)
Definition startsWith (s p : string) : bool := String.prefix p s.

(** [s.split(sep)] for a separator that is not empty.  [skip] counts the
    characters of a separator just met that are still to be dropped and
    [cur] holds the piece read so far, backwards. *)
Fixpoint splitGo (sep : string) (skip : nat) (cur : string) (s : string)
  : list string :=
  match s with
  | EmptyString => [String.rev cur]
  | String c r =>
      match skip with
      | S k => splitGo sep k cur r
      | O =>
          if String.prefix sep s
          then String.rev cur :: splitGo sep (Nat.pred (String.length sep)) "" r
          else splitGo sep 0 (String c cur) r
      end
  end.

Definition split (sep s : string) : list string := splitGo sep 0 "" s.

End Str.

(** The names every plain object answers to without owning them: the
    members of [Object.prototype].  Each of them is a function or an
    object, so it is truthy and has no field of the data model. *)
Definition inherited (key : string) : bool :=
  existsb (String.eqb key)
    ["constructor"; "__proto__"; "hasOwnProperty"; "isPrototypeOf";
     "propertyIsEnumerable"; "toLocaleString"; "toString"; "valueOf";
     "__defineGetter__"; "__defineSetter__"; "__lookupGetter__";
     "__lookupSetter__"].

(** ** What is thrown *)

Inductive Thrown : Type :=
| JsError (message : string)     (* [new Error(message)] *)
| JsTypeError (message : string) (* a [TypeError] raised by the engine *)
| Rejected (rendered : string).  (* any other value the host rejects with *)

(** [`${error}`] *)
Definition render (e : Thrown) : string :=
  match e with
  | JsError m => if Str.isEmpty m then "Error" else "Error: " +:+ m
  | JsTypeError m => if Str.isEmpty m then "TypeError" else "TypeError: " +:+ m
  | Rejected r => r
  end.

Inductive Result (A : Type) : Type :=
| Ok (a : A)
| Throw (e : Thrown).
Arguments Ok {A} a.
Arguments Throw {A} e.

(** ** The data model ([types/index.ts]) *)

Module ActiveSession.
Record t : Type := mk {
  domain : string;
  startTime : number;
  tabId : number;
  windowId : number;
  isPaused : option bool
}.

(** [{ ...s, isPaused: p }] *)
Definition withPaused (s : t) (p : bool) : t :=
  mk (domain s) (startTime s) (tabId s) (windowId s) (Some p).
End ActiveSession.

Module Session.
Record t : Type := mk {
  startTime : number;
  endTime : option number;
  duration : number;
  tabId : number;
  windowId : number
}.
End Session.

Module DomainData.
Record t : Type := mk {
  totalTime : number;
  sessions : list Session.t;
  dailyStats : gmap string number;
  lastAccessed : number
}.

(** [Partial<DomainData>]: an object with any of the four fields.  It is
    also what an object that the code takes for a [DomainData] is at run
    time, where the type is only a cast. *)
Record partial : Type := mkPartial {
  totalTime' : option number;
  sessions' : option (list Session.t);
  dailyStats' : option (gmap string number);
  lastAccessed' : option number
}.

(** a [DomainData] as the object it is *)
Definition whole (d : t) : partial :=
  mkPartial (Some (totalTime d)) (Some (sessions d)) (Some (dailyStats d))
            (Some (lastAccessed d)).

(** a member of [Object.prototype] taken for a record: it has none of the
    fields, and spreading it copies nothing *)
Definition alien : partial := mkPartial None None None None.

Definition over {A} (new old : option A) : option A :=
  match new with Some _ => new | None => old end.

(** [{ ...d, ...u, lastAccessed: now }] *)
Definition merge (d u : partial) (now : number) : partial :=
  mkPartial (over (totalTime' u) (totalTime' d))
            (over (sessions' u) (sessions' d))
            (over (dailyStats' u) (dailyStats' d))
            (Some now).

(** [domains[key]]: the record the object owns at [key], else the member
    of [Object.prototype] of that name, else [undefined] *)
Definition read (domains : gmap string partial) (key : string) : option partial :=
  match domains !! key with
  | Some record => Some record
  | None => if inherited key then Some alien else None
  end.
End DomainData.

Inductive PillPosition : Type := TopLeft | TopRight | BottomLeft | BottomRight.

Module ExtensionSettings.
Record t : Type := mk {
  pillPosition : PillPosition;
  pillVisibility : bool;
  dataRetentionDays : number;
  excludedDomains : list string
}.

(** [Partial<ExtensionSettings>] *)
Record partial : Type := mkPartial {
  pillPosition' : option PillPosition;
  pillVisibility' : option bool;
  dataRetentionDays' : option number;
  excludedDomains' : option (list string)
}.

(** [{ ...s, ...u }] *)
Definition merge (s : t) (u : partial) : t :=
  mk (default (pillPosition s) (pillPosition' u))
     (default (pillVisibility s) (pillVisibility' u))
     (default (dataRetentionDays s) (dataRetentionDays' u))
     (default (excludedDomains s) (excludedDomains' u)).
End ExtensionSettings.

Module StorageSchema.
Record t : Type := mk {
  domains : gmap string DomainData.partial;
  activeSession : option ActiveSession.t;
  settings : ExtensionSettings.t;
  version : number;
  installDate : number
}.

(** [Partial<StorageSchema>]: what the storage area holds and what
    [get] and [set] exchange with it.  A key is missing ([None]) or
    holds a value; the active session slot may hold [null]. *)
Record partial : Type := mkPartial {
  domains' : option (gmap string DomainData.partial);
  activeSession' : option (option ActiveSession.t);
  settings' : option ExtensionSettings.t;
  version' : option number;
  installDate' : option number
}.

Definition empty : partial := mkPartial None None None None None.

Inductive key : Type := Domains | ActiveSession | Settings | Version | InstallDate.

Definition key_eqb (a b : key) : bool :=
  match a, b with
  | Domains, Domains | ActiveSession, ActiveSession | Settings, Settings
  | Version, Version | InstallDate, InstallDate => true
  | _, _ => false
  end.

Definition asked (keys : list key) (k : key) : bool := existsb (key_eqb k) keys.

Definition pick {A} (keys : list key) (k : key) (v : option A) : option A :=
  if asked keys k then v else None.

(** the object [storage.get(keys)] resolves to *)
Definition project (keys : list key) (s : partial) : partial :=
  mkPartial (pick keys Domains (domains' s))
            (pick keys ActiveSession (activeSession' s))
            (pick keys Settings (settings' s))
            (pick keys Version (version' s))
            (pick keys InstallDate (installDate' s)).

Definition over {A} (new old : option A) : option A :=
  match new with Some _ => new | None => old end.

(** the content after [storage.set(items)] *)
Definition assign (items s : partial) : partial :=
  mkPartial (over (domains' items) (domains' s))
            (over (activeSession' items) (activeSession' s))
            (over (settings' items) (settings' s))
            (over (version' items) (version' s))
            (over (installDate' items) (installDate' s)).

Definition count {A} (v : option A) : nat :=
  match v with Some _ => 1 | None => 0 end.

(** [Object.keys(items).length] *)
Definition keyCount (items : partial) : nat :=
  count (domains' items) + count (activeSession' items)
  + count (settings' items) + count (version' items)
  + count (installDate' items).

Definition drop {A} (keys : list key) (k : key) (v : option A) : option A :=
  if asked keys k then None else v.

(** the content after [storage.remove(keys)] *)
Definition without (keys : list key) (s : partial) : partial :=
  mkPartial (drop keys Domains (domains' s))
            (drop keys ActiveSession (activeSession' s))
            (drop keys Settings (settings' s))
            (drop keys Version (version' s))
            (drop keys InstallDate (installDate' s)).
End StorageSchema.

(** ** The host and the world *)

Record Host : Type := mkHost {
  (** the n-th call to the storage area rejects with this value, if any *)
  fault : nat -> option Thrown;
  (** the n-th reading of [performance.now()] *)
  performanceNow : nat -> number;
  (** the n-th reading of [Date.now()], in milliseconds *)
  dateNow : nat -> Z;
  (** [new Date(ms).toISOString().split('T')[0]] *)
  isoDate : Z -> string;
  (** [new URL(url).hostname]; [None] when the constructor throws *)
  hostname : string -> option string;
  (** the message of the [TypeError] for reading property [key] of
      [undefined] *)
  cannotRead : string -> string;
  (** the message of the [TypeError] for spreading [undefined] *)
  notIterable : string;
  (** a date is never the name of a member of [Object.prototype] *)
  isoDate_plain : forall ms, inherited (isoDate ms) = false
}.

Record World : Type := mkWorld {
  store : StorageSchema.partial;  (* what the storage area holds *)
  calls : nat;                    (* calls to the storage area so far *)
  perfReads : nat;                (* readings of [performance.now()] so far *)
  dateReads : nat;                (* readings of [Date.now()] so far *)
  sets : list StorageSchema.partial
    (* the items of every [storage.set] that went through, newest first *)
}.

Definition Async (A : Type) : Type := Host -> World -> Result A * World.

Definition ret {A} (a : A) : Async A := fun _ w => (Ok a, w).

Definition throw {A} (e : Thrown) : Async A := fun _ w => (Throw e, w).

Definition bind {A B} (m : Async A) (k : A -> Async B) : Async B :=
  fun h w =>
    match m h w with
    | (Ok a, w') => k a h w'
    | (Throw e, w') => (Throw e, w')
    end.

(** [try { m } catch (e) { handler e }] *)
Definition tryCatch {A} (m : Async A) (handler : Thrown -> Async A) : Async A :=
  fun h w =>
    match m h w with
    | (Ok a, w') => (Ok a, w')
    | (Throw e, w') => handler e h w'
    end.

Notation "x <- m ;; k" := (bind m (fun x => k))
  (at level 100, m at next level, right associativity, only parsing).
Notation "m ;;; k" := (bind m (fun _ => k))
  (at level 100, right associativity, only parsing).

Module Browser.

Definition called (w : World) : World :=
  mkWorld (store w) (S (calls w)) (perfReads w) (dateReads w) (sets w).

Definition written (items : StorageSchema.partial) (w : World) : World :=
  mkWorld (StorageSchema.assign items (store w)) (S (calls w))
          (perfReads w) (dateReads w) (items :: sets w).

Definition perfRead (w : World) : World :=
  mkWorld (store w) (calls w) (S (perfReads w)) (dateReads w) (sets w).

Definition dateRead (w : World) : World :=
  mkWorld (store w) (calls w) (perfReads w) (S (dateReads w)) (sets w).

Definition performance_now : Async number := fun h w =>
  (Ok (performanceNow h (perfReads w)), perfRead w).

Definition Date_now : Async number := fun h w =>
  (Ok (Num.ofZ (dateNow h (dateReads w))), dateRead w).

(** [new Date(Date.now()).toISOString().split('T')[0]] *)
Definition today : Async string := fun h w =>
  (Ok (isoDate h (dateNow h (dateReads w))), dateRead w).

(** reading property [key] of [undefined] *)
Definition readOfUndefined {A} (key : string) : Async A := fun h w =>
  (Throw (JsTypeError (cannotRead h key)), w).

(** spreading [undefined] into an array *)
Definition spreadOfUndefined {A} : Async A := fun h w =>
  (Throw (JsTypeError (notIterable h)), w).

(** [storage.get(keys)] *)
Definition storage_get (keys : list StorageSchema.key)
  : Async StorageSchema.partial := fun h w =>
  match fault h (calls w) with
  | Some e => (Throw e, called w)
  | None => (Ok (StorageSchema.project keys (store w)), called w)
  end.

(** [storage.set(items)]; a call that rejects has written nothing *)
Definition storage_set (items : StorageSchema.partial) : Async unit := fun h w =>
  match fault h (calls w) with
  | Some e => (Throw e, called w)
  | None => (Ok tt, written items w)
  end.

(** [storage.remove(keys)] *)
Definition storage_remove (keys : list StorageSchema.key) : Async unit := fun h w =>
  match fault h (calls w) with
  | Some e => (Throw e, called w)
  | None =>
      (Ok tt, mkWorld (StorageSchema.without keys (store w)) (S (calls w))
                      (perfReads w) (dateReads w) (sets w))
  end.

(** [storage.clear()] *)
Definition storage_clear : Async unit := fun h w =>
  match fault h (calls w) with
  | Some e => (Throw e, called w)
  | None =>
      (Ok tt, mkWorld StorageSchema.empty (S (calls w)) (perfReads w) (dateReads w)
                      (sets w))
  end.

End Browser.

(** ** [StorageManager] *)

Module StorageManager.
Import StorageSchema.

Definition get (keys : list key) : Async partial :=
  tryCatch (Browser.storage_get keys)
    (fun error => throw (JsError ("Failed to get storage data: " +:+ render error))).

Definition set (items : partial) : Async unit :=
  tryCatch (Browser.storage_set items)
    (fun error => throw (JsError ("Failed to set storage data: " +:+ render error))).

Definition getDefaultSettings : ExtensionSettings.t :=
  ExtensionSettings.mk TopRight true (Num.ofZ 30) [].

Definition createEmptyDomainData : Async DomainData.t :=
  now <- Browser.Date_now ;;
  ret (DomainData.mk Num.zero [] ∅ now).

(** [v || other ()] on numbers: [other] runs only when [v] is missing
    or falsy *)
Definition orElse (v : option number) (other : Async number) : Async number :=
  match v with
  | Some n => if Num.truthy n then ret n else other
  | None => other
  end.

(** [v || other ()] on objects, which are all truthy *)
Definition orElseObj {A} (v : option A) (other : Async A) : Async A :=
  match v with
  | Some a => ret a
  | None => other
  end.

Definition getAll : Async StorageSchema.t :=
  tryCatch
    (data <- get [Domains; ActiveSession; Settings; Version; InstallDate] ;;
     installDate <- orElse (installDate' data) Browser.Date_now ;;
     ret (StorageSchema.mk
            (default ∅ (domains' data))
            (default None (activeSession' data))
            (default getDefaultSettings (settings' data))
            (Num.orDefault (version' data) Num.one)
            installDate))
    (fun error => throw (JsError ("Failed to get all storage data: " +:+ render error))).

Definition initialize : Async unit :=
  tryCatch
    (existing <- get [Version; InstallDate; Settings] ;;
     let updates := empty in
     let updates :=
       if negb (Num.present (version' existing))
       then mkPartial (domains' updates) (activeSession' updates)
                      (settings' updates) (Some Num.one) (installDate' updates)
       else updates in
     updates <-
       (if negb (Num.present (installDate' existing))
        then now <- Browser.Date_now ;;
             ret (mkPartial (domains' updates) (activeSession' updates)
                            (settings' updates) (version' updates) (Some now))
        else ret updates) ;;
     let updates :=
       match settings' existing with
       | None => mkPartial (domains' updates) (activeSession' updates)
                           (Some getDefaultSettings) (version' updates)
                           (installDate' updates)
       | Some _ => updates
       end in
     if Nat.ltb 0 (keyCount updates) then set updates else ret tt)
    (fun error => throw (JsError ("Failed to initialize storage: " +:+ render error))).

(** [createEmptyDomainData()], as the object it returns *)
Definition emptyDomainData : Async DomainData.partial :=
  empty <- createEmptyDomainData ;;
  ret (DomainData.whole empty).

Definition getDomainData (domain : string) : Async DomainData.partial :=
  tryCatch
    (data <- get [Domains] ;;
     orElseObj (domains' data ≫= (fun ds => DomainData.read ds domain))
               emptyDomainData)
    (fun _ => emptyDomainData).

Definition updateDomainData (domain : string) (updates : DomainData.partial)
  : Async unit :=
  tryCatch
    (data <- get [Domains] ;;
     let currentDomains := default ∅ (domains' data) in
     currentDomainData <-
       orElseObj (DomainData.read currentDomains domain) emptyDomainData ;;
     now <- Browser.Date_now ;;
     let updatedDomainData := DomainData.merge currentDomainData updates now in
     set (mkPartial (Some (<[domain := updatedDomainData]> currentDomains))
                    None None None None))
    (fun error =>
       throw (JsError ("Failed to update domain data for " +:+ domain +:+ ": "
                       +:+ render error))).

Definition getActiveSession : Async (option ActiveSession.t) :=
  tryCatch
    (data <- get [ActiveSession] ;;
     ret (default None (activeSession' data)))
    (fun _ => ret None).

Definition setActiveSession (session : option ActiveSession.t) : Async unit :=
  tryCatch
    (set (mkPartial None (Some session) None None None))
    (fun error => throw (JsError ("Failed to set active session: " +:+ render error))).


Definition remove (keys : list key) : Async unit :=
  tryCatch (Browser.storage_remove keys)
    (fun error => throw (JsError ("Failed to remove storage data: " +:+ render error))).

Definition clear : Async unit :=
  tryCatch Browser.storage_clear
    (fun error => throw (JsError ("Failed to clear storage data: " +:+ render error))).

Definition getSettings : Async ExtensionSettings.t :=
  tryCatch
    (data <- get [Settings] ;;
     ret (default getDefaultSettings (settings' data)))
    (fun _ => ret getDefaultSettings).

Definition updateSettings (updates : ExtensionSettings.partial) : Async unit :=
  tryCatch
    (currentSettings <- getSettings ;;
     let updatedSettings := ExtensionSettings.merge currentSettings updates in
     set (mkPartial None None (Some updatedSettings) None None))
    (fun error => throw (JsError ("Failed to update settings: " +:+ render error))).

End StorageManager.

(** ** [TimeTracker] *)

Module TimeTracker.

Definition extractDomain (h : Host) (url : string) : string :=
  if Str.isEmpty url then "unknown"
  else if Str.startsWith url "chrome://"
          || Str.startsWith url "moz-extension://"
          || Str.startsWith url "about:"
  then
    let parts := Str.split "://" url in
    if Nat.ltb 1 (length parts) then hd "unknown" parts else "unknown"
  else
    match hostname h url with
    | None => "unknown"
    | Some name => if Str.isEmpty name then "unknown" else name
    end.

Definition calculateDuration (startTime : number) (endTime : option number)
  : Async number :=
  finish <- match endTime with
            | Some e => ret e
            | None => Browser.performance_now
            end ;;
  let duration := Num.sub finish startTime in
  ret (Num.max0 duration).

Definition getSessionDuration (session : ActiveSession.t) : Async number :=
  calculateDuration (ActiveSession.startTime session) None.

Definition startSession (domain : string) (tabId windowId : number)
  : Async ActiveSession.t :=
  tryCatch
    (if Str.isEmpty domain || Str.isEmpty (Str.trim domain)
     then throw (JsError "Domain cannot be empty")
     else if negb (Num.isInteger tabId) || Num.ltZero tabId
     then throw (JsError "TabId must be a positive number")
     else if negb (Num.isInteger windowId) || Num.ltZero windowId
     then throw (JsError "WindowId must be a positive number")
     else
       existingSession <- StorageManager.getActiveSession ;;
       match existingSession with
       | Some _ =>
           throw (JsError "Cannot start session: another session is already active")
       | None =>
           now <- Browser.performance_now ;;
           let session :=
             ActiveSession.mk (Str.trim domain) now tabId windowId (Some false) in
           (StorageManager.setActiveSession (Some session) ;;;
            ret session)
       end)
    (fun error => throw (JsError ("Failed to start session: " +:+ render error))).

Definition updateDomainData (domain : string) (session : Session.t) : Async unit :=
  tryCatch
    (domainData <- StorageManager.getDomainData domain ;;
     sessionDate <- Browser.today ;;
     match DomainData.dailyStats' domainData with
     | None => Browser.readOfUndefined sessionDate
     | Some dailyStats =>
         let existingDailyTime := Num.orZero (dailyStats !! sessionDate) in
         (* [undefined + n] is [NaN] *)
         let totalTime :=
           Num.add (default NaN (DomainData.totalTime' domainData))
                   (Session.duration session) in
         match DomainData.sessions' domainData with
         | None => Browser.spreadOfUndefined
         | Some sessions =>
             now <- Browser.Date_now ;;
             let updatedData :=
               DomainData.mkPartial
                 (Some totalTime)
                 (Some (sessions ++ [session])%list)
                 (Some (<[sessionDate := Num.add existingDailyTime
                                                 (Session.duration session)]>
                          dailyStats))
                 (Some now) in
             StorageManager.updateDomainData domain updatedData
         end
     end)
    (fun error => throw error).

Definition stopSession : Async (option Session.t) :=
  tryCatch
    (activeSession <- StorageManager.getActiveSession ;;
     match activeSession with
     | None => ret None
     | Some activeSession =>
         endTime <- Browser.performance_now ;;
         duration <- calculateDuration (ActiveSession.startTime activeSession)
                                       (Some endTime) ;;
         let completedSession :=
           Session.mk (ActiveSession.startTime activeSession) (Some endTime)
                      duration (ActiveSession.tabId activeSession)
                      (ActiveSession.windowId activeSession) in
         (updateDomainData (ActiveSession.domain activeSession) completedSession ;;;
          StorageManager.setActiveSession None ;;;
          ret (Some completedSession))
     end)
    (fun error => throw (JsError ("Failed to stop session: " +:+ render error))).

Definition pauseSession : Async (option ActiveSession.t) :=
  tryCatch
    (activeSession <- StorageManager.getActiveSession ;;
     match activeSession with
     | None => ret None
     | Some activeSession =>
         let pausedSession := ActiveSession.withPaused activeSession true in
         (StorageManager.setActiveSession (Some pausedSession) ;;;
          ret (Some pausedSession))
     end)
    (fun error => throw (JsError ("Failed to pause session: " +:+ render error))).

Definition resumeSession : Async (option ActiveSession.t) :=
  tryCatch
    (activeSession <- StorageManager.getActiveSession ;;
     match activeSession with
     | None => ret None
     | Some activeSession =>
         let resumedSession := ActiveSession.withPaused activeSession false in
         (StorageManager.setActiveSession (Some resumedSession) ;;;
          ret (Some resumedSession))
     end)
    (fun error => throw (JsError ("Failed to resume session: " +:+ render error))).


Definition getCurrentSession : Async (option ActiveSession.t) :=
  StorageManager.getActiveSession.

End TimeTracker.

(** ** [BackgroundService] *)

Module Tab.
Record t : Type := mk {
  url : option string;
  active : bool;
  windowId : number
}.
End Tab.

(** What the browser supplies to the event handlers. *)
Record Tabs : Type := mkTabs {
  (** [browser.tabs.get(tabId)]: the tab, or the value it rejects with *)
  tabsGet : number -> Result Tab.t;
  (** [new URL(url).protocol]; [None] when the constructor throws *)
  protocol : string -> option string;
  (** [browser.windows.WINDOW_ID_NONE] *)
  WINDOW_ID_NONE : number
}.

Module BackgroundService.

(** [await] of a promise that is settled by the browser alone *)
Definition settled {A} (r : Result A) : Async A := fun _ w => (r, w).

Definition extractDomain (url : string) : Async string := fun h w =>
  (Ok (TimeTracker.extractDomain h url), w).

Definition isValidUrl (t : Tabs) (url : string) : bool :=
  if Str.isEmpty url then false
  else
    match protocol t url with
    | None => false
    | Some p => String.eqb p "http:" || String.eqb p "https:"
    end.

Definition isDomainExcluded (domain : string) : Async bool :=
  tryCatch
    (settings <- StorageManager.getSettings ;;
     ret (existsb (String.eqb domain) (ExtensionSettings.excludedDomains settings)))
    (fun _ => ret false).

(** The block the three tracking handlers share, from the extraction of
    the domain to the start of the new session. *)
Definition track (url : string) (tabId windowId : number) : Async unit :=
  domain <- extractDomain url ;;
  excluded <- isDomainExcluded domain ;;
  if excluded then ret tt
  else
    activeSession <- StorageManager.getActiveSession ;;
    (match activeSession with
     | Some _ => (TimeTracker.stopSession ;;; ret tt)
     | None => ret tt
     end ;;;
     TimeTracker.startSession domain tabId windowId ;;;
     ret tt).

Definition handleTabActivated (t : Tabs) (tabId windowId : number) : Async unit :=
  tryCatch
    (tab <- settled (tabsGet t tabId) ;;
     match Tab.url tab with
     | None => ret tt
     | Some url =>
         if negb (isValidUrl t url) then ret tt
         else track url tabId windowId
     end)
    (fun _ => ret tt).

Definition handleTabUpdated (t : Tabs) (tabId : number) (changedUrl : option string)
    (tab : Tab.t) : Async unit :=
  tryCatch
    (match changedUrl with
     | None => ret tt
     | Some url =>
         if Str.isEmpty url || negb (Tab.active tab) then ret tt
         else if negb (isValidUrl t url) then ret tt
         else track url tabId (Tab.windowId tab)
     end)
    (fun _ => ret tt).

Definition handleWindowFocusChanged (t : Tabs) (windowId : number) : Async unit :=
  tryCatch
    (activeSession <- StorageManager.getActiveSession ;;
     match activeSession with
     | None => ret tt
     | Some activeSession =>
         if Num.strictEq windowId (WINDOW_ID_NONE t)
         then (TimeTracker.pauseSession ;;; ret tt)
         else
           match ActiveSession.isPaused activeSession with
           | Some true => (TimeTracker.resumeSession ;;; ret tt)
           | _ => ret tt
           end
     end)
    (fun _ => ret tt).

Definition handleNavigationCompleted (t : Tabs) (tabId frameId : number)
    (url : string) : Async unit :=
  tryCatch
    (if negb (Num.strictEq frameId Num.zero) then ret tt
     else if negb (isValidUrl t url) then ret tt
     else
       tab <- settled (tabsGet t tabId) ;;
       if negb (Tab.active tab) then ret tt
       else track url tabId (Tab.windowId tab))
    (fun _ => ret tt).

Definition shutdown : Async unit :=
  tryCatch
    (activeSession <- StorageManager.getActiveSession ;;
     match activeSession with
     | Some _ => (TimeTracker.stopSession ;;; ret tt)
     | None => ret tt
     end)
    (fun _ => ret tt).

End BackgroundService.

(** ** Vocabulary of the properties *)

(** A whole number that is not negative: what [startSession] accepts as a
    [tabId] or a [windowId]. *)
Definition nonNegativeInteger (n : number) : Prop :=
  exists z : Z, (0 <= z)%Z /\ n = Num.ofZ z.

(** Two active sessions that differ at most in [isPaused]. *)
Definition sameButPaused (a b : ActiveSession.t) : Prop :=
  ActiveSession.domain a = ActiveSession.domain b
  /\ ActiveSession.startTime a = ActiveSession.startTime b
  /\ ActiveSession.tabId a = ActiveSession.tabId b
  /\ ActiveSession.windowId a = ActiveSession.windowId b.

(** The active sessions the storage area holds. *)
Definition persistedSessions (s : StorageSchema.partial) : list ActiveSession.t :=
  match StorageSchema.activeSession' s with
  | Some (Some session) => [session]
  | _ => []
  end.

(** The domains map the storage area holds, empty when the key is missing. *)
Definition storedDomains (s : StorageSchema.partial)
  : gmap string DomainData.partial :=
  default ∅ (StorageSchema.domains' s).


(** What [getDomainData] finds for a domain: [domains?.[domain]]. *)
Definition storedEntry (s : StorageSchema.partial) (domain : string)
  : option DomainData.partial :=
  StorageSchema.domains' s ≫= fun ds => DomainData.read ds domain.

(** The record [createEmptyDomainData] makes at the instant [now]. *)
Definition emptyAt (now : Z) : DomainData.t :=
  DomainData.mk Num.zero [] ∅ (Num.ofZ now).

(** The session [stopSession] completes at [endTime]. *)
Definition completedAt (s : ActiveSession.t) (endTime : number) : Session.t :=
  Session.mk (ActiveSession.startTime s) (Some endTime)
             (Num.max0 (Num.sub endTime (ActiveSession.startTime s)))
             (ActiveSession.tabId s) (ActiveSession.windowId s).

(** The record of a domain once [session], completed on [date], is folded
    into [prior], the record it had ([None]: it had none). *)
Definition folded (prior : option DomainData.t) (date : string)
    (session : Session.t) (stamp : number) : DomainData.t :=
  DomainData.mk
    (Num.add (from_option DomainData.totalTime Num.zero prior)
             (Session.duration session))
    (from_option DomainData.sessions [] prior ++ [session])%list
    (<[date := Num.add
                 (Num.orZero (prior ≫= fun p => DomainData.dailyStats p !! date))
                 (Session.duration session)]>
       (from_option DomainData.dailyStats ∅ prior))
    stamp.

(** The sum of the durations of a list of sessions, added up in order. *)
Definition totalOf (sessions : list Session.t) : number :=
  fold_left (fun acc s => Num.add acc (Session.duration s)) sessions Num.zero.

(** Whether a string has a colon. *)
Fixpoint hasColon (s : string) : bool :=
  match s with
  | EmptyString => false
  | String c r => Ascii.eqb c ":" || hasColon r
  end.

(** Whether the stored settings (the defaults when none are stored)
    exclude a domain. *)
Definition excludedBy (s : StorageSchema.partial) (domain : string) : bool :=
  existsb (String.eqb domain)
    (ExtensionSettings.excludedDomains
       (default StorageManager.getDefaultSettings (StorageSchema.settings' s))).

(** What the bootstrap keys lack: each of [version], [installDate] and
    [settings] that is absent from the store (or, for the two numbers,
    holds a falsy one), with its default; no other key. *)
Definition gaps (h : Host) (w : World) : StorageSchema.partial :=
  StorageSchema.mkPartial None None
    (match StorageSchema.settings' (store w) with
     | None => Some StorageManager.getDefaultSettings
     | Some _ => None
     end)
    (if Num.present (StorageSchema.version' (store w)) then None
     else Some Num.one)
    (if Num.present (StorageSchema.installDate' (store w)) then None
     else Some (Num.ofZ (dateNow h (dateReads w)))).

(** ** Sequences of calls to the engine *)

Inductive Call : Type :=
| Start (domain : string) (tabId windowId : number)
| Stop
| Pause
| Resume.

Inductive Answer : Type :=
| Started (r : Result ActiveSession.t)
| Stopped (r : Result (option Session.t))
| Paused (r : Result (option ActiveSession.t))
| Resumed (r : Result (option ActiveSession.t)).

Definition perform (c : Call) (h : Host) (w : World) : Answer * World :=
  match c with
  | Start domain tabId windowId =>
      let (r, w') := TimeTracker.startSession domain tabId windowId h w in
      (Started r, w')
  | Stop => let (r, w') := TimeTracker.stopSession h w in (Stopped r, w')
  | Pause => let (r, w') := TimeTracker.pauseSession h w in (Paused r, w')
  | Resume => let (r, w') := TimeTracker.resumeSession h w in (Resumed r, w')
  end.

(** the answer of every call of [cs], made one after the other from [w],
    with the world it leaves *)
Fixpoint history (cs : list Call) (h : Host) (w : World) : list (Answer * World) :=
  match cs with
  | [] => []
  | c :: rest =>
      let (a, w') := perform c h w in
      (a, w') :: history rest h w'
  end.

(** What a call threw, if it threw. *)
Definition thrownBy (a : Answer) : option Thrown :=
  match a with
  | Started (Throw e) | Stopped (Throw e) | Paused (Throw e) | Resumed (Throw e) =>
      Some e
  | _ => None
  end.

(** ** Concrete hosts and worlds *)

Module Scenario.

(** storage never fails; the clock of [performance.now()] reads 1000, 5000,
    9000, ...; [Date.now()] is 2022-01-01T00:00:00Z *)
Definition reliable : Host :=
  mkHost (fun _ => None)
         (fun n => Num.ofZ (1000 + 4000 * Z.of_nat n))
         (fun _ => 1640995200000%Z)
         (fun _ => "2022-01-01")
         (fun _ => None)
         (fun key => "Cannot read properties of undefined (reading '" +:+ key +:+ "')")
         "domainData.sessions is not iterable"
         (fun _ => eq_refl).

(** as [reliable], but the call number [n] to the storage area rejects *)
Definition failingAt (n : nat) : Host :=
  mkHost (fun k => if Nat.eqb k n then Some (JsError "Storage error") else None)
         (performanceNow reliable) (dateNow reliable) (isoDate reliable)
         (hostname reliable) (cannotRead reliable) (notIterable reliable)
         (isoDate_plain reliable).

Definition fresh : World := mkWorld StorageSchema.empty 0 0 0 [].

Definition visit : ActiveSession.t :=
  ActiveSession.mk "example.com" (Num.ofZ 1000) (Num.ofZ 123) (Num.ofZ 1) (Some false).

(** a world in which [visit] is the active session *)
Definition tracking : World :=
  mkWorld (StorageSchema.mkPartial None (Some (Some visit)) None None None)
          0 1 0 [].

(** a store that is fully set up, but with version [0] *)
Definition versionZero : World :=
  mkWorld (StorageSchema.mkPartial None None
             (Some StorageManager.getDefaultSettings)
             (Some Num.zero) (Some (Num.ofZ 1640995200000)))
          0 0 0 [].

(** a world with a history: five seconds on [example.com], two of them on
    2022-01-01, and one second on [other.org]; [visit] is running *)
Definition visited : World :=
  mkWorld
    (StorageSchema.mkPartial
       (Some (<["example.com" :=
                  DomainData.whole
                    (DomainData.mk (Num.ofZ 5000) []
                       {["2022-01-01" := Num.ofZ 2000]} (Num.ofZ 1640995100000))]>
              (<["other.org" :=
                   DomainData.whole
                     (DomainData.mk (Num.ofZ 1000) [] ∅ (Num.ofZ 1640995000000))]>
               ∅)))
       (Some (Some visit)) None None None)
    0 1 0 [].

(** a store whose settings were all changed by the user *)
Definition customised : World :=
  mkWorld (StorageSchema.mkPartial None None
             (Some (ExtensionSettings.mk BottomLeft false (Num.ofZ 7) ["a.com"]))
             (Some Num.one) (Some (Num.ofZ 1640995200000)))
          0 0 0 [].

(** the browser of the scenarios: tab 123 shows [https://news.example/a],
    tab 7 an extension page; URLs are parsed by their first characters *)
Definition browser : Tabs :=
  mkTabs
    (fun tabId =>
       if Num.strictEq tabId (Num.ofZ 123)
       then Ok (Tab.mk (Some "https://news.example/a") true (Num.ofZ 1))
       else if Num.strictEq tabId (Num.ofZ 7)
       then Ok (Tab.mk (Some "chrome://extensions") true (Num.ofZ 1))
       else Throw (JsError "No tab with id"))
    (fun url =>
       if Str.startsWith url "https://" then Some "https:"
       else if Str.startsWith url "http://" then Some "http:"
       else if Str.startsWith url "chrome://" then Some "chrome:"
       else None)
    (Num.ofZ (-1)).

(** as [reliable], with a URL parser that knows [https://news.example/a] *)
Definition online : Host :=
  mkHost (fault reliable) (performanceNow reliable) (dateNow reliable)
         (isoDate reliable)
         (fun url =>
            if String.eqb url "https://news.example/a" then Some "news.example"
            else None)
         (cannotRead reliable) (notIterable reliable) (isoDate_plain reliable).

(** [visited], with [news.example] excluded by the settings *)
Definition excluding : World :=
  mkWorld
    (StorageSchema.mkPartial
       (StorageSchema.domains' (store visited))
       (Some (Some visit))
       (Some (ExtensionSettings.mk TopRight true (Num.ofZ 30) ["news.example"]))
       None None)
    0 1 0 [].

(** a visit of [http://constructor/], whose host is the name of a member
    of [Object.prototype] *)
Definition oddVisit : ActiveSession.t :=
  ActiveSession.mk "constructor" (Num.ofZ 1000) (Num.ofZ 5) (Num.ofZ 1) (Some false).

(** [visited], with [oddVisit] running instead of [visit] *)
Definition oddTracking : World :=
  mkWorld
    (StorageSchema.mkPartial (StorageSchema.domains' (store visited))
       (Some (Some oddVisit)) None None None)
    0 1 0 [].

(** one visit of four seconds *)
Definition earlier : Session.t :=
  Session.mk (Num.ofZ 0) (Some (Num.ofZ 4000)) (Num.ofZ 4000) (Num.ofZ 123)
             (Num.ofZ 1).

(** the record of [example.com] after [earlier] alone *)
Definition balancedRecord : DomainData.t :=
  DomainData.mk (Num.ofZ 4000) [earlier] {["2021-12-31" := Num.ofZ 4000]}
                (Num.ofZ 1640908800000).

(** a world whose books are balanced; [visit] is running *)
Definition balanced : World :=
  mkWorld
    (StorageSchema.mkPartial
       (Some {["example.com" := DomainData.whole balancedRecord]})
       (Some (Some visit)) None None None)
    0 1 0 [].

End Scenario.

(** * Properties *)

(** ** Numbers and strings *)

Lemma ofZ_isInteger z : Num.isInteger (Num.ofZ z) = true.
Proof. reflexivity. Qed.

Lemma ofZ_ltZero z : Num.ltZero (Num.ofZ z) = (z <? 0)%Z.
Proof.
  unfold Num.ltZero, Num.ofZ, Qccompare, Qcompare. simpl.
  rewrite Z.mul_1_r. unfold Z.ltb. reflexivity.
Qed.

Lemma ofZ_truthy z : Num.truthy (Num.ofZ z) = negb (z =? 0)%Z.
Proof. reflexivity. Qed.

Lemma whole_is_ofZ (q : Qc) :
  Qden (this q) = 1%positive -> Finite q = Num.ofZ (Qnum (this q)).
Proof.
  intros Hden. unfold Num.ofZ. f_equal. apply Qc_is_canon.
  destruct q as [[a d] Hc]. simpl in *. subst d. reflexivity.
Qed.

(** the test [!Number.isInteger(n) || n < 0] fails exactly on the whole
    numbers that are not negative *)
Lemma id_test_spec n :
  negb (Num.isInteger n) || Num.ltZero n = false <-> nonNegativeInteger n.
Proof.
  unfold nonNegativeInteger. split.
  - intros H. apply orb_false_elim in H as [Hint Hneg].
    apply negb_false_iff in Hint.
    destruct n as [| s | q]; unfold Num.isInteger in Hint; try discriminate.
    apply Pos.eqb_eq in Hint. rewrite (whole_is_ofZ q Hint) in *.
    rewrite ofZ_ltZero in Hneg. apply Z.ltb_ge in Hneg. eauto.
  - intros (z & Hz & ->). rewrite ofZ_ltZero, ofZ_isInteger. simpl.
    apply Z.ltb_ge. exact Hz.
Qed.

Lemma id_test_rejects n :
  ~ nonNegativeInteger n -> negb (Num.isInteger n) || Num.ltZero n = true.
Proof.
  intros H. destruct (negb (Num.isInteger n) || Num.ltZero n) eqn:E; [reflexivity |].
  apply id_test_spec in E. contradiction.
Qed.

(** arithmetic on whole numbers is that of [Z] *)
Lemma add_ofZ a b : Num.add (Num.ofZ a) (Num.ofZ b) = Num.ofZ (a + b).
Proof.
  unfold Num.add, Num.ofZ. f_equal. apply Qc_is_canon. simpl.
  rewrite Qred_correct. unfold Qeq, Qplus. simpl. lia.
Qed.

Lemma sub_ofZ a b : Num.sub (Num.ofZ a) (Num.ofZ b) = Num.ofZ (a - b).
Proof.
  unfold Num.sub, Num.opp, Num.add, Num.ofZ. f_equal. apply Qc_is_canon. simpl.
  rewrite !Qred_correct. unfold Qeq, Qplus, Qopp. simpl. lia.
Qed.

Lemma max0_ofZ a : Num.max0 (Num.ofZ a) = Num.ofZ (Z.max 0 a).
Proof.
  unfold Num.max0. change (Num.ofZ a) with (Finite (Qc_of_Z a)) at 1.
  cbv iota. fold (Num.ofZ a). rewrite ofZ_ltZero.
  destruct (Z.ltb_spec a 0).
  - rewrite Z.max_l by lia. reflexivity.
  - rewrite Z.max_r by lia. reflexivity.
Qed.

Lemma isEmpty_spec s : Str.isEmpty s = true <-> s = "".
Proof. destruct s; simpl; split; congruence. Qed.

(** the test [!domain || domain.trim() === ''] *)
Lemma blank_test_spec domain :
  Str.isEmpty domain || Str.isEmpty (Str.trim domain) = true
  <-> Str.trim domain = "".
Proof.
  rewrite orb_true_iff, !isEmpty_spec. split.
  - intros [-> | H]; [reflexivity | exact H].
  - auto.
Qed.

Lemma blank_test_passes domain :
  Str.trim domain <> "" ->
  Str.isEmpty domain || Str.isEmpty (Str.trim domain) = false.
Proof.
  intros H. destruct (Str.isEmpty domain || Str.isEmpty (Str.trim domain)) eqn:E;
    [| reflexivity].
  apply blank_test_spec in E. contradiction.
Qed.

(** ** Single steps of the storage layer *)

Section Steps.
Variable h : Host.
Variable w : World.

Lemma get_ok keys :
  fault h (calls w) = None ->
  StorageManager.get keys h w
  = (Ok (StorageSchema.project keys (store w)), Browser.called w).
Proof.
  intros H. unfold StorageManager.get, tryCatch, Browser.storage_get.
  rewrite H. reflexivity.
Qed.

Lemma get_failed keys e :
  fault h (calls w) = Some e ->
  StorageManager.get keys h w
  = (Throw (JsError ("Failed to get storage data: " +:+ render e)),
     Browser.called w).
Proof.
  intros H. unfold StorageManager.get, tryCatch, Browser.storage_get.
  rewrite H. reflexivity.
Qed.

Lemma set_ok items :
  fault h (calls w) = None ->
  StorageManager.set items h w = (Ok tt, Browser.written items w).
Proof.
  intros H. unfold StorageManager.set, tryCatch, Browser.storage_set.
  rewrite H. reflexivity.
Qed.

Lemma set_failed items e :
  fault h (calls w) = Some e ->
  StorageManager.set items h w
  = (Throw (JsError ("Failed to set storage data: " +:+ render e)),
     Browser.called w).
Proof.
  intros H. unfold StorageManager.set, tryCatch, Browser.storage_set.
  rewrite H. reflexivity.
Qed.

Lemma getActiveSession_ok :
  fault h (calls w) = None ->
  StorageManager.getActiveSession h w
  = (Ok (default None (StorageSchema.activeSession' (store w))),
     Browser.called w).
Proof.
  intros H. unfold StorageManager.getActiveSession, tryCatch, bind.
  rewrite (get_ok _ H). reflexivity.
Qed.

(** a read that fails is absorbed: the slot is reported empty *)
Lemma getActiveSession_failed e :
  fault h (calls w) = Some e ->
  StorageManager.getActiveSession h w = (Ok None, Browser.called w).
Proof.
  intros H. unfold StorageManager.getActiveSession, tryCatch, bind.
  rewrite (get_failed _ e H). reflexivity.
Qed.

Lemma getActiveSession_total :
  exists found, StorageManager.getActiveSession h w = (Ok found, Browser.called w).
Proof.
  destruct (fault h (calls w)) as [e |] eqn:E.
  - rewrite (getActiveSession_failed e E). eauto.
  - rewrite (getActiveSession_ok E). eauto.
Qed.

Lemma setActiveSession_ok session :
  fault h (calls w) = None ->
  StorageManager.setActiveSession session h w
  = (Ok tt,
     Browser.written
       (StorageSchema.mkPartial None (Some session) None None None) w).
Proof.
  intros H. unfold StorageManager.setActiveSession, tryCatch.
  rewrite (set_ok _ H). reflexivity.
Qed.

Lemma setActiveSession_failed session e :
  fault h (calls w) = Some e ->
  StorageManager.setActiveSession session h w
  = (Throw (JsError ("Failed to set active session: "
                     +:+ render (JsError ("Failed to set storage data: "
                                          +:+ render e)))),
     Browser.called w).
Proof.
  intros H. unfold StorageManager.setActiveSession, tryCatch.
  rewrite (set_failed _ e H). reflexivity.
Qed.

End Steps.

(** ** The duration of a running session *)

(** C8: [getSessionDuration] does not look at the pause flag.  Two active
    sessions equal except for [isPaused], asked at the same instant, get the
    same answer, and the answer is the time elapsed since [startTime]
    (never negative): pausing does not stop the clock. *)
Theorem getSessionDuration_ignores_isPaused (a b : ActiveSession.t) h w :
  sameButPaused a b ->
  TimeTracker.getSessionDuration a h w = TimeTracker.getSessionDuration b h w
  /\ TimeTracker.getSessionDuration a h w
     = (Ok (Num.max0 (Num.sub (performanceNow h (perfReads w))
                              (ActiveSession.startTime a))),
        Browser.perfRead w).
Proof.
  intros (_ & Hstart & _ & _). unfold TimeTracker.getSessionDuration.
  rewrite Hstart. split; reflexivity.
Qed.

Lemma getSessionDuration_ignores_isPaused_witness :
  sameButPaused Scenario.visit (ActiveSession.withPaused Scenario.visit true)
  /\ TimeTracker.getSessionDuration Scenario.visit Scenario.reliable
       (Browser.perfRead Scenario.fresh)
     = TimeTracker.getSessionDuration
         (ActiveSession.withPaused Scenario.visit true) Scenario.reliable
         (Browser.perfRead Scenario.fresh).
Proof.
  assert (H : sameButPaused Scenario.visit
                (ActiveSession.withPaused Scenario.visit true))
    by (repeat split; reflexivity).
  split; [exact H |].
  exact (proj1 (getSessionDuration_ignores_isPaused _ _ Scenario.reliable
                  (Browser.perfRead Scenario.fresh) H)).
Defined.

(** ** Starting a session *)

(** C4: a call of [startSession] whose domain is blank once trimmed, or
    whose [tabId] or [windowId] is not a whole number that is not negative,
    fails with the validation error of the first argument at fault
    ([Domain cannot be empty] for the domain), wrapped by [startSession];
    the world is left as it was, so the storage area was not called. *)
Theorem startSession_rejects_invalid_arguments domain tabId windowId h w :
  Str.trim domain = ""
  \/ ~ nonNegativeInteger tabId
  \/ ~ nonNegativeInteger windowId ->
  exists message,
    TimeTracker.startSession domain tabId windowId h w
    = (Throw (JsError ("Failed to start session: Error: " +:+ message)), w)
    /\ (Str.trim domain = "" -> message = "Domain cannot be empty")
    /\ (Str.trim domain <> "" -> ~ nonNegativeInteger tabId ->
        message = "TabId must be a positive number")
    /\ (Str.trim domain <> "" -> nonNegativeInteger tabId ->
        message = "WindowId must be a positive number").
Proof.
  intros Hbad. unfold TimeTracker.startSession, tryCatch.
  destruct (Str.isEmpty domain || Str.isEmpty (Str.trim domain)) eqn:Ed.
  { apply blank_test_spec in Ed. eexists. split; [reflexivity |].
    split; [reflexivity |]. split; intros Hd; contradiction. }
  assert (Hd : Str.trim domain <> "").
  { intros E. apply blank_test_spec in E. congruence. }
  destruct (negb (Num.isInteger tabId) || Num.ltZero tabId) eqn:Et.
  { eexists. split; [reflexivity |].
    split; [intros E; contradiction |]. split; [reflexivity |].
    intros _ Hok. apply id_test_spec in Hok. congruence. }
  apply id_test_spec in Et.
  destruct (negb (Num.isInteger windowId) || Num.ltZero windowId) eqn:Ew.
  { eexists. split; [reflexivity |].
    split; [intros E; contradiction |]. split; [intros _ Hno; contradiction |].
    reflexivity. }
  apply id_test_spec in Ew. exfalso.
  destruct Hbad as [H | [H | H]]; auto.
Qed.

Lemma startSession_rejects_invalid_arguments_witness :
  ~ nonNegativeInteger NaN
  /\ exists message,
       TimeTracker.startSession "example.com" NaN (Num.ofZ 1)
         Scenario.reliable Scenario.fresh
       = (Throw (JsError ("Failed to start session: Error: " +:+ message)),
          Scenario.fresh)
       /\ message = "TabId must be a positive number".
Proof.
  assert (Hnan : ~ nonNegativeInteger NaN).
  { intros (z & _ & E). discriminate E. }
  split; [exact Hnan |].
  destruct (startSession_rejects_invalid_arguments "example.com" NaN (Num.ofZ 1)
              Scenario.reliable Scenario.fresh (or_intror (or_introl Hnan)))
    as (message & Hrun & _ & Htab & _).
  exists message. split; [exact Hrun |].
  apply Htab; [discriminate | exact Hnan].
Defined.

(** [startSession] once its arguments have passed validation *)
Lemma startSession_valid domain tabId windowId h w :
  Str.trim domain <> "" ->
  nonNegativeInteger tabId ->
  nonNegativeInteger windowId ->
  TimeTracker.startSession domain tabId windowId h w
  = tryCatch
      (existingSession <- StorageManager.getActiveSession ;;
       match existingSession with
       | Some _ =>
           throw (JsError "Cannot start session: another session is already active")
       | None =>
           now <- Browser.performance_now ;;
           let session :=
             ActiveSession.mk (Str.trim domain) now tabId windowId (Some false) in
           (StorageManager.setActiveSession (Some session) ;;;
            ret session)
       end)
      (fun error => throw (JsError ("Failed to start session: " +:+ render error)))
      h w.
Proof.
  intros Hd Ht Hw. unfold TimeTracker.startSession, tryCatch.
  rewrite (blank_test_passes _ Hd).
  rewrite (proj2 (id_test_spec tabId) Ht), (proj2 (id_test_spec windowId) Hw).
  reflexivity.
Qed.

(** Whatever its arguments and whatever the host does, [startSession]
    either throws and leaves the stored object as it was, or returns a
    session that is not paused and has just been written to the slot. *)
Lemma startSession_cases domain tabId windowId h w :
  (exists e w',
      TimeTracker.startSession domain tabId windowId h w = (Throw e, w')
      /\ store w' = store w)
  \/ (exists s w',
      TimeTracker.startSession domain tabId windowId h w = (Ok s, w')
      /\ ActiveSession.isPaused s = Some false
      /\ store w'
         = StorageSchema.assign
             (StorageSchema.mkPartial None (Some (Some s)) None None None)
             (store w)).
Proof.
  destruct (Str.isEmpty domain || Str.isEmpty (Str.trim domain)) eqn:Ed.
  { left. unfold TimeTracker.startSession, tryCatch. rewrite Ed. eauto. }
  destruct (negb (Num.isInteger tabId) || Num.ltZero tabId) eqn:Et.
  { left. unfold TimeTracker.startSession, tryCatch. rewrite Ed, Et. eauto. }
  destruct (negb (Num.isInteger windowId) || Num.ltZero windowId) eqn:Ew.
  { left. unfold TimeTracker.startSession, tryCatch. rewrite Ed, Et, Ew. eauto. }
  unfold TimeTracker.startSession, tryCatch, bind. rewrite Ed, Et, Ew.
  destruct (getActiveSession_total h w) as [found ->].
  destruct found as [s |].
  { left. simpl. eauto. }
  unfold Browser.performance_now.
  destruct (fault h (calls (Browser.perfRead (Browser.called w)))) as [e |] eqn:Ef.
  - left. rewrite (setActiveSession_failed _ _ _ e Ef). simpl. eauto.
  - right. rewrite (setActiveSession_ok _ _ _ Ef). simpl.
    eexists. eexists. split; [reflexivity |]. split; reflexivity.
Qed.

(** C3, as the code has it: while the slot holds a session and the read of
    the slot does not fail, every call of [startSession] fails and leaves
    the stored object as it was.  With invalid arguments the error is the
    validation error of the first argument at fault, thrown before any
    storage call; with valid arguments it is the conflict error, and
    nothing but that one read was asked of the storage area (no stop, no
    write). *)
Theorem startSession_conflict domain tabId windowId (s : ActiveSession.t) h w :
  StorageSchema.activeSession' (store w) = Some (Some s) ->
  fault h (calls w) = None ->
  exists message w',
    TimeTracker.startSession domain tabId windowId h w
    = (Throw (JsError ("Failed to start session: Error: " +:+ message)), w')
    /\ store w' = store w
    /\ sets w' = sets w
    /\ (Str.trim domain = "" ->
        message = "Domain cannot be empty" /\ w' = w)
    /\ (Str.trim domain <> "" -> ~ nonNegativeInteger tabId ->
        message = "TabId must be a positive number" /\ w' = w)
    /\ (Str.trim domain <> "" -> nonNegativeInteger tabId ->
        ~ nonNegativeInteger windowId ->
        message = "WindowId must be a positive number" /\ w' = w)
    /\ (Str.trim domain <> "" -> nonNegativeInteger tabId ->
        nonNegativeInteger windowId ->
        message = "Cannot start session: another session is already active"
        /\ w' = Browser.called w).
Proof.
  intros Hslot Hread.
  destruct (Str.isEmpty domain || Str.isEmpty (Str.trim domain)) eqn:Ed.
  { unfold TimeTracker.startSession, tryCatch. rewrite Ed.
    apply blank_test_spec in Ed.
    eexists. eexists. split; [reflexivity |]. split; [reflexivity |].
    split; [reflexivity |]. split; [intros _; split; reflexivity |].
    split; [intros Hd; contradiction |].
    split; intros Hd; contradiction. }
  assert (Hd : Str.trim domain <> "").
  { intros E. apply blank_test_spec in E. congruence. }
  destruct (negb (Num.isInteger tabId) || Num.ltZero tabId) eqn:Et.
  { unfold TimeTracker.startSession, tryCatch. rewrite Ed, Et.
    assert (Hno : ~ nonNegativeInteger tabId).
    { intros Ht. apply id_test_spec in Ht. congruence. }
    eexists. eexists. split; [reflexivity |]. split; [reflexivity |].
    split; [reflexivity |]. split; [intros E; contradiction |].
    split; [intros _ _; split; reflexivity |].
    split; intros _ Ht; contradiction. }
  assert (Ht : nonNegativeInteger tabId) by (apply id_test_spec; exact Et).
  destruct (negb (Num.isInteger windowId) || Num.ltZero windowId) eqn:Ew.
  { unfold TimeTracker.startSession, tryCatch. rewrite Ed, Et, Ew.
    assert (Hno : ~ nonNegativeInteger windowId).
    { intros Hw. apply id_test_spec in Hw. congruence. }
    eexists. eexists. split; [reflexivity |]. split; [reflexivity |].
    split; [reflexivity |]. split; [intros E; contradiction |].
    split; [intros _ Hbad; contradiction |].
    split; [intros _ _ _; split; reflexivity |].
    intros _ _ Hw. contradiction. }
  assert (Hw : nonNegativeInteger windowId) by (apply id_test_spec; exact Ew).
  unfold TimeTracker.startSession, tryCatch, bind. rewrite Ed, Et, Ew.
  rewrite (getActiveSession_ok h w Hread), Hslot. simpl.
  eexists. eexists. split; [reflexivity |]. split; [reflexivity |].
  split; [reflexivity |]. split; [intros E; contradiction |].
  split; [intros _ Hbad; contradiction |].
  split; [intros _ _ Hbad; contradiction |].
  intros _ _ _. split; reflexivity.
Qed.

Lemma startSession_conflict_witness :
  exists w',
    TimeTracker.startSession "other.org" (Num.ofZ 7) (Num.ofZ 1)
      Scenario.reliable Scenario.tracking
    = (Throw (JsError ("Failed to start session: Error: "
                       +:+ "Cannot start session: another session is already active")),
       w')
    /\ store w' = store Scenario.tracking.
Proof.
  destruct (startSession_conflict "other.org" (Num.ofZ 7) (Num.ofZ 1)
              Scenario.visit Scenario.reliable Scenario.tracking
              eq_refl eq_refl)
    as (message & w' & Hrun & Hstore & _ & _ & _ & _ & Hconflict).
  assert (Hint : forall z, (0 <= z)%Z -> nonNegativeInteger (Num.ofZ z))
    by (intros z Hz; exists z; split; [exact Hz | reflexivity]).
  destruct Hconflict as [-> _];
    [discriminate | apply Hint; discriminate | apply Hint; discriminate |].
  exists w'. split; [exact Hrun | exact Hstore].
Defined.

(** C3 fails as stated: when the read of the slot is rejected,
    [getActiveSession] reports an empty slot, and [startSession] succeeds
    and replaces the session that was stored. *)
Lemma startSession_conflict_missed :
  let before := Scenario.tracking in
  let run := TimeTracker.startSession "other.org" (Num.ofZ 7) (Num.ofZ 1)
               (Scenario.failingAt 0) before in
  let started :=
    ActiveSession.mk "other.org" (Num.ofZ 5000) (Num.ofZ 7) (Num.ofZ 1)
                     (Some false) in
  StorageSchema.activeSession' (store before) = Some (Some Scenario.visit)
  /\ fst run = Ok started
  /\ StorageSchema.activeSession' (store (snd run)) = Some (Some started)
  /\ started <> Scenario.visit.
Proof.
  cbv zeta. split; [reflexivity |]. split; [reflexivity |].
  split; [reflexivity |]. discriminate.
Qed.

(** ** The single slot *)

Lemma persistedSessions_at_most_one (s : StorageSchema.partial) :
  length (persistedSessions s) <= 1.
Proof.
  unfold persistedSessions.
  destruct (StorageSchema.activeSession' s) as [[session |] |]; simpl; lia.
Qed.

Lemma persistedSessions_assign (items s : StorageSchema.partial) session :
  StorageSchema.activeSession' items = Some (Some session) ->
  persistedSessions (StorageSchema.assign items s) = [session].
Proof.
  intros H. unfold persistedSessions, StorageSchema.assign. simpl.
  rewrite H. reflexivity.
Qed.

(** C1: for every sequence of [startSession], [stopSession],
    [pauseSession] and [resumeSession] calls, made from any world on any
    host, the storage area holds at most one active session before the
    first call and after every call; and after every [startSession] that
    succeeded the stored session is the one returned, with
    [isPaused = false]. *)
Theorem at_most_one_active_session (cs : list Call) h w :
  length (persistedSessions (store w)) <= 1
  /\ Forall
       (fun '(answer, after) =>
          length (persistedSessions (store after)) <= 1
          /\ forall session,
               answer = Started (Ok session) ->
               persistedSessions (store after) = [session]
               /\ ActiveSession.isPaused session = Some false)
       (history cs h w).
Proof.
  split; [apply persistedSessions_at_most_one |].
  revert w. induction cs as [| c rest IH]; intros w; simpl.
  { constructor. }
  destruct (perform c h w) as [answer after] eqn:Estep.
  constructor; [| apply IH].
  split; [apply persistedSessions_at_most_one |].
  intros session ->.
  destruct c as [domain tabId windowId | | |]; simpl in Estep;
    try (destruct (TimeTracker.stopSession h w); discriminate);
    try (destruct (TimeTracker.pauseSession h w); discriminate);
    try (destruct (TimeTracker.resumeSession h w); discriminate).
  destruct (startSession_cases domain tabId windowId h w)
    as [(e & w' & Hrun & _) | (s & w' & Hrun & Hpaused & Hstore)];
    rewrite Hrun in Estep; inversion Estep; subst.
  split; [| exact Hpaused].
  rewrite Hstore. apply persistedSessions_assign. reflexivity.
Qed.

(** ** Reading the whole schema *)

(** C5, as the code has it: [getAll] makes one read of the five root
    keys.  When the read succeeds it returns a complete schema in which
    every key that is missing (or holds a falsy number) has its default:
    empty domains map, no active session, default settings, version 1,
    install date = now; building the defaults never fails and the stored
    object is not touched.  When the read is rejected, [getAll] throws the
    wrapped error. *)
Theorem getAll_backfills_or_throws h w :
  match fault h (calls w) with
  | None =>
      exists w',
        StorageManager.getAll h w
        = (Ok (StorageSchema.mk
                 (default ∅ (StorageSchema.domains' (store w)))
                 (default None (StorageSchema.activeSession' (store w)))
                 (default StorageManager.getDefaultSettings
                          (StorageSchema.settings' (store w)))
                 (Num.orDefault (StorageSchema.version' (store w)) Num.one)
                 (Num.orDefault (StorageSchema.installDate' (store w))
                                (Num.ofZ (dateNow h (dateReads w))))),
           w')
        /\ store w' = store w
  | Some e =>
      StorageManager.getAll h w
      = (Throw (JsError ("Failed to get all storage data: Error: "
                         +:+ "Failed to get storage data: " +:+ render e)),
         Browser.called w)
  end.
Proof.
  destruct (fault h (calls w)) as [e |] eqn:Ef.
  - unfold StorageManager.getAll, tryCatch, bind.
    rewrite (get_failed h w _ e Ef). reflexivity.
  - unfold StorageManager.getAll, tryCatch, bind.
    rewrite (get_ok h w _ Ef). simpl.
    destruct (StorageSchema.installDate' (store w)) as [v |]; simpl.
    + destruct (Num.truthy v); simpl; eexists; split; reflexivity.
    + eexists; split; reflexivity.
Qed.

(** C5 fails as stated: [getAll] does fail outward when the read is
    rejected. *)
Lemma getAll_fails_outward :
  fst (StorageManager.getAll (Scenario.failingAt 0) Scenario.fresh)
  = Throw (JsError ("Failed to get all storage data: Error: "
                    +:+ "Failed to get storage data: Error: Storage error")).
Proof. reflexivity. Qed.

(** ** Bootstrapping the store *)

(** [initialize] is one read, then one [set] of exactly the gaps, or no
    [set] at all when there is no gap *)
Lemma initialize_run h w :
  fault h (calls w) = None ->
  StorageManager.initialize h w
  = if Nat.ltb 0 (StorageSchema.keyCount (gaps h w))
    then tryCatch (StorageManager.set (gaps h w))
           (fun error =>
              throw (JsError ("Failed to initialize storage: " +:+ render error)))
           h
           (if Num.present (StorageSchema.installDate' (store w))
            then Browser.called w
            else Browser.dateRead (Browser.called w))
    else (Ok tt, Browser.called w).
Proof.
  intros Hf. unfold StorageManager.initialize, tryCatch, bind, gaps.
  rewrite (get_ok h w _ Hf).
  destruct w as [[ds slot st ver inst] n p d l]. cbn in *.
  destruct ver as [ver |], inst as [inst |], st as [st |]; cbn;
    try destruct (Num.truthy ver); try destruct (Num.truthy inst); reflexivity.
Qed.

Lemma initialize_done h w :
  fst (StorageManager.initialize h w) = Ok tt ->
  store (snd (StorageManager.initialize h w))
  = StorageSchema.assign (gaps h w) (store w)
  /\ sets (snd (StorageManager.initialize h w))
     = if Nat.ltb 0 (StorageSchema.keyCount (gaps h w))
       then gaps h w :: sets w else sets w.
Proof.
  destruct (fault h (calls w)) as [e |] eqn:Ef.
  { unfold StorageManager.initialize, tryCatch, bind.
    rewrite (get_failed h w _ e Ef). cbn. discriminate. }
  rewrite (initialize_run h w Ef).
  destruct (Nat.ltb 0 (StorageSchema.keyCount (gaps h w))) eqn:Ecount.
  - unfold StorageManager.set, Browser.storage_set, tryCatch.
    destruct (Num.present (StorageSchema.installDate' (store w))); cbn;
      destruct (fault h (S (calls w))); cbn; intros H; try discriminate H;
      split; reflexivity.
  - intros _. cbn. split; [| reflexivity].
    unfold gaps in *. destruct w as [[ds slot st ver inst] n p d l]. cbn in *.
    destruct st; destruct (Num.present ver); destruct (Num.present inst);
      cbn in Ecount; try discriminate Ecount; reflexivity.
Qed.

(** and when it throws, nothing was written *)
Lemma initialize_thrown h w e :
  fst (StorageManager.initialize h w) = Throw e ->
  store (snd (StorageManager.initialize h w)) = store w
  /\ sets (snd (StorageManager.initialize h w)) = sets w.
Proof.
  destruct (fault h (calls w)) as [e' |] eqn:Ef.
  { unfold StorageManager.initialize, tryCatch, bind.
    rewrite (get_failed h w _ e' Ef). split; reflexivity. }
  rewrite (initialize_run h w Ef).
  destruct (Nat.ltb 0 (StorageSchema.keyCount (gaps h w))) eqn:Ecount;
    [| discriminate].
  unfold StorageManager.set, Browser.storage_set, tryCatch.
  destruct (Num.present (StorageSchema.installDate' (store w))); cbn;
    destruct (fault h (S (calls w))); cbn; intros H; try discriminate H;
    split; reflexivity.
Qed.

Lemma orDefault_keeps v d x :
  v = Some x -> Num.truthy x = true -> Num.orDefault v d = x.
Proof. intros -> H. unfold Num.orDefault. rewrite H. reflexivity. Qed.

Lemma orDefault_truthy v d :
  Num.truthy d = true -> Num.truthy (Num.orDefault v d) = true.
Proof.
  intros H. unfold Num.orDefault. destruct v as [x |]; [| exact H].
  destruct (Num.truthy x) eqn:E; [exact E | exact H].
Qed.

Lemma present_gap (v : option number) (d : number) :
  StorageSchema.over (if Num.present v then None else Some d) v
  = Some (Num.orDefault v d).
Proof.
  destruct v as [x |]; cbn; [| reflexivity].
  destruct (Num.truthy x); reflexivity.
Qed.

(** after a successful [initialize] with a clock that did not read [0]
    there is no gap left *)
Lemma no_gap_left h w h' w' :
  Num.truthy (Num.ofZ (dateNow h (dateReads w))) = true ->
  store w' = StorageSchema.assign (gaps h w) (store w) ->
  StorageSchema.keyCount (gaps h' w') = 0.
Proof.
  intros Hnow Hs. unfold gaps. rewrite Hs. cbn.
  rewrite !present_gap. cbn.
  rewrite (orDefault_truthy _ Num.one eq_refl), (orDefault_truthy _ _ Hnow).
  destruct (StorageSchema.settings' (store w)); reflexivity.
Qed.

(** C7, as the code has it: [initialize] writes exactly the gaps.  The
    items of its one [set] are those of [version], [installDate] and
    [settings] that are absent or hold a falsy number ([0] or [NaN]), each
    with its default (1, now, the default settings), and nothing else;
    when there is no gap it makes no [set] at all, and when it throws it
    has written nothing.  So a truthy version or install date, stored
    settings and the other keys are never overwritten.  Calling
    [initialize] again after a call that succeeded writes nothing and
    leaves the stored object unchanged, provided the clock of [Date.now()]
    did not read [0]. *)
Theorem initialize_fills_gaps_only h w :
  let first := StorageManager.initialize h w in
  let second := StorageManager.initialize h (snd first) in
  let s := store w in
  let s1 := store (snd first) in
  let missing := gaps h w in
  (* the gaps are the keys that are absent or falsy, and only they *)
  StorageSchema.domains' missing = None
  /\ StorageSchema.activeSession' missing = None
  /\ (is_Some (StorageSchema.version' missing)
      <-> Num.present (StorageSchema.version' s) = false)
  /\ (is_Some (StorageSchema.installDate' missing)
      <-> Num.present (StorageSchema.installDate' s) = false)
  /\ (is_Some (StorageSchema.settings' missing)
      <-> StorageSchema.settings' s = None)
  (* what is written *)
  /\ (fst first = Ok tt ->
      s1 = StorageSchema.assign missing s
      /\ sets (snd first)
         = if Nat.ltb 0 (StorageSchema.keyCount missing)
           then missing :: sets w else sets w)
  /\ (forall e, fst first = Throw e -> s1 = s /\ sets (snd first) = sets w)
  (* what is kept *)
  /\ (forall v, StorageSchema.version' s = Some v -> Num.truthy v = true ->
                StorageSchema.version' s1 = Some v)
  /\ (forall v, StorageSchema.installDate' s = Some v -> Num.truthy v = true ->
                StorageSchema.installDate' s1 = Some v)
  /\ (forall x, StorageSchema.settings' s = Some x ->
                StorageSchema.settings' s1 = Some x)
  /\ StorageSchema.domains' s1 = StorageSchema.domains' s
  /\ StorageSchema.activeSession' s1 = StorageSchema.activeSession' s
  (* what a successful call leaves *)
  /\ (fst first = Ok tt ->
      StorageSchema.version' s1
      = Some (Num.orDefault (StorageSchema.version' s) Num.one)
      /\ StorageSchema.installDate' s1
         = Some (Num.orDefault (StorageSchema.installDate' s)
                               (Num.ofZ (dateNow h (dateReads w))))
      /\ StorageSchema.settings' s1
         = Some (default StorageManager.getDefaultSettings
                         (StorageSchema.settings' s)))
  (* twice in a row *)
  /\ (dateNow h (dateReads w) <> 0%Z ->
      fst first = Ok tt ->
      store (snd second) = s1 /\ sets (snd second) = sets (snd first)).
Proof.
  intros first second s s1 missing.
  split; [reflexivity |]. split; [reflexivity |].
  split.
  { unfold missing, gaps. cbn. fold s.
    destruct (Num.present (StorageSchema.version' s)); split;
      try discriminate; try reflexivity; intros H;
      try (destruct H; discriminate); eauto. }
  split.
  { unfold missing, gaps. cbn. fold s.
    destruct (Num.present (StorageSchema.installDate' s)); split;
      try discriminate; try reflexivity; intros H;
      try (destruct H; discriminate); eauto. }
  split.
  { unfold missing, gaps. cbn. fold s.
    destruct (StorageSchema.settings' s); split; intros H;
      try discriminate H; try (destruct H; discriminate); eauto. }
  assert (Hcases : (fst first = Ok tt /\ s1 = StorageSchema.assign missing s)
                   \/ s1 = s).
  { destruct (fst first) as [[] | e] eqn:Efirst.
    - left. split; [reflexivity |].
      exact (proj1 (initialize_done h w Efirst)).
    - right. exact (proj1 (initialize_thrown h w e Efirst)). }
  split. { intros Hok. exact (initialize_done h w Hok). }
  split. { intros e He. exact (initialize_thrown h w e He). }
  assert (Hassign : StorageSchema.assign missing s
                    = StorageSchema.mkPartial
                        (StorageSchema.domains' s)
                        (StorageSchema.activeSession' s)
                        (Some (default StorageManager.getDefaultSettings
                                       (StorageSchema.settings' s)))
                        (Some (Num.orDefault (StorageSchema.version' s) Num.one))
                        (Some (Num.orDefault (StorageSchema.installDate' s)
                                 (Num.ofZ (dateNow h (dateReads w)))))).
  { unfold missing, gaps, StorageSchema.assign. cbn. fold s.
    rewrite !present_gap. f_equal.
    destruct (StorageSchema.settings' s); reflexivity. }
  split.
  { intros v Hv Ht. destruct Hcases as [[_ ->] | ->]; [| exact Hv].
    rewrite Hassign. cbn. f_equal. exact (orDefault_keeps _ _ _ Hv Ht). }
  split.
  { intros v Hv Ht. destruct Hcases as [[_ ->] | ->]; [| exact Hv].
    rewrite Hassign. cbn. f_equal. exact (orDefault_keeps _ _ _ Hv Ht). }
  split.
  { intros x Hx. destruct Hcases as [[_ ->] | ->]; [| exact Hx].
    rewrite Hassign. cbn. rewrite Hx. reflexivity. }
  split. { destruct Hcases as [[_ ->] | ->]; reflexivity. }
  split. { destruct Hcases as [[_ ->] | ->]; reflexivity. }
  split.
  { intros Hok. pose proof (proj1 (initialize_done h w Hok)) as Hs1.
    change (s1 = StorageSchema.assign missing s) in Hs1.
    rewrite Hs1, Hassign. repeat split; reflexivity. }
  intros Hclock Hok.
  assert (Hnow : Num.truthy (Num.ofZ (dateNow h (dateReads w))) = true).
  { rewrite ofZ_truthy. apply negb_true_iff, Z.eqb_neq. exact Hclock. }
  destruct (initialize_done h w Hok) as [Hs1 _]. fold first in Hs1.
  pose proof (no_gap_left h w h (snd first) Hnow Hs1) as Hnone.
  subst second.
  destruct (fst (StorageManager.initialize h (snd first))) as [[] | e2] eqn:E2.
  - destruct (initialize_done h (snd first) E2) as [Hs2 Hsets2].
    rewrite Hsets2, Hs2, Hnone. split; [| reflexivity].
    unfold gaps in *. cbn in *.
    destruct (StorageSchema.settings' (store (snd first)));
      destruct (Num.present (StorageSchema.version' (store (snd first))));
      destruct (Num.present (StorageSchema.installDate' (store (snd first))));
      cbn in Hnone; try discriminate Hnone.
    destruct (store (snd first)); reflexivity.
  - exact (initialize_thrown h (snd first) e2 E2).
Qed.

Lemma initialize_fills_gaps_only_witness :
  dateNow Scenario.reliable (dateReads Scenario.fresh) <> 0%Z
  /\ store (snd (StorageManager.initialize Scenario.reliable
                   (snd (StorageManager.initialize Scenario.reliable
                           Scenario.fresh))))
     = store (snd (StorageManager.initialize Scenario.reliable Scenario.fresh))
  /\ sets (snd (StorageManager.initialize Scenario.reliable
                  (snd (StorageManager.initialize Scenario.reliable
                          Scenario.fresh))))
     = [StorageSchema.mkPartial None None
          (Some StorageManager.getDefaultSettings) (Some Num.one)
          (Some (Num.ofZ 1640995200000))].
Proof.
  assert (Hclock : dateNow Scenario.reliable (dateReads Scenario.fresh) <> 0%Z)
    by discriminate.
  split; [exact Hclock |].
  pose proof (initialize_fills_gaps_only Scenario.reliable Scenario.fresh) as H.
  cbv zeta in H.
  destruct H as (_ & _ & _ & _ & _ & _ & _ & _ & _ & _ & _ & _ & _ & Htwice).
  destruct (Htwice Hclock eq_refl) as [Hstore Hsets].
  split; [exact Hstore |]. rewrite Hsets. reflexivity.
Defined.

(** C7 fails as stated: a stored version that is [0] is there, and
    [initialize] overwrites it with [1]. *)
Lemma initialize_overwrites_falsy_version :
  let before := Scenario.versionZero in
  let after := snd (StorageManager.initialize Scenario.reliable before) in
  StorageSchema.version' (store before) = Some Num.zero
  /\ StorageSchema.version' (store after) = Some Num.one
  /\ Num.zero <> Num.one.
Proof.
  cbv zeta. split; [reflexivity |]. split; [reflexivity |]. discriminate.
Qed.

(** ** Updating the record of a domain *)

(** [StorageManager.updateDomainData] either throws and has written
    nothing, or has written the domains map with the one entry of [d]
    replaced by the merge of what [currentDomains[d]] was (a fresh empty
    record when it was [undefined]) with the updates, stamped with the
    reading of [Date.now()] that followed. *)
Lemma updateDomainData_cases h w d u :
  let run := StorageManager.updateDomainData d u h w in
  let found := DomainData.read (storedDomains (store w)) d in
  let current :=
    default (DomainData.whole (emptyAt (dateNow h (dateReads w)))) found in
  let stamp :=
    Num.ofZ (dateNow h (match found with
                        | Some _ => dateReads w
                        | None => S (dateReads w)
                        end)) in
  let items :=
    StorageSchema.mkPartial
      (Some (<[d := DomainData.merge current u stamp]> (storedDomains (store w))))
      None None None None in
  (exists cause,
      fst run = Throw (JsError ("Failed to update domain data for " +:+ d
                                +:+ ": " +:+ cause))
      /\ store (snd run) = store w
      /\ sets (snd run) = sets w)
  \/ (fst run = Ok tt
      /\ store (snd run) = StorageSchema.assign items (store w)
      /\ sets (snd run) = items :: sets w).
Proof.
  cbv zeta. unfold StorageManager.updateDomainData, tryCatch, bind.
  destruct (fault h (calls w)) as [e |] eqn:Ef.
  { rewrite (get_failed h w _ e Ef). left. eexists. repeat split; reflexivity. }
  rewrite (get_ok h w _ Ef).
  change (StorageSchema.domains' (StorageSchema.project [StorageSchema.Domains] (store w)))
    with (StorageSchema.domains' (store w)).
  change (default ∅ (StorageSchema.domains' (store w)))
    with (storedDomains (store w)).
  unfold StorageManager.set, tryCatch, Browser.storage_set.
  destruct (DomainData.read (storedDomains (store w)) d) as [record |] eqn:Ed; cbn;
    destruct (fault h (S (calls w))) as [e |] eqn:Es; cbn.
  all: solve [ left; eexists; repeat split; reflexivity
             | right; repeat split; reflexivity ].
Qed.

(** C9: [updateDomainData d u] leaves the stored record of every other
    domain as it was (and an absent one absent), whether it succeeds or
    throws, and does not touch the other root keys.  When it succeeds, the
    record of [d] is the merge of what [currentDomains[d]] was with [u],
    stamped with a new [lastAccessed]: the fields of [u] over those of the
    record [d] had, of a new empty record when [d] had none, or of no
    field at all when [d] had none but names a member of
    [Object.prototype]. *)
Theorem updateDomainData_frame h w (d d' : string) (u : DomainData.partial) :
  d <> d' ->
  let run := StorageManager.updateDomainData d u h w in
  let found := DomainData.read (storedDomains (store w)) d in
  let current :=
    default (DomainData.whole (emptyAt (dateNow h (dateReads w)))) found in
  let stamp :=
    Num.ofZ (dateNow h (match found with
                        | Some _ => dateReads w
                        | None => S (dateReads w)
                        end)) in
  storedDomains (store (snd run)) !! d' = storedDomains (store w) !! d'
  /\ StorageSchema.activeSession' (store (snd run))
     = StorageSchema.activeSession' (store w)
  /\ StorageSchema.settings' (store (snd run)) = StorageSchema.settings' (store w)
  /\ StorageSchema.version' (store (snd run)) = StorageSchema.version' (store w)
  /\ StorageSchema.installDate' (store (snd run))
     = StorageSchema.installDate' (store w)
  /\ (fst run = Ok tt ->
      storedDomains (store (snd run)) !! d
      = Some (DomainData.merge current u stamp))
  /\ (storedDomains (store w) !! d = None -> inherited d = true ->
      current = DomainData.alien)
  /\ (storedDomains (store w) !! d = None -> inherited d = false ->
      current = DomainData.whole (emptyAt (dateNow h (dateReads w))))
  /\ (forall record, storedDomains (store w) !! d = Some record ->
                     current = record).
Proof.
  intros Hne run found current stamp.
  assert (Hcurrent :
    (storedDomains (store w) !! d = None -> inherited d = true ->
     current = DomainData.alien)
    /\ (storedDomains (store w) !! d = None -> inherited d = false ->
        current = DomainData.whole (emptyAt (dateNow h (dateReads w))))
    /\ (forall record, storedDomains (store w) !! d = Some record ->
                       current = record)).
  { unfold current, found, DomainData.read.
    destruct (storedDomains (store w) !! d) as [record |].
    - repeat split; try discriminate. intros r E. injection E as <-. reflexivity.
    - repeat split; try discriminate; intros _ ->; reflexivity. }
  destruct (updateDomainData_cases h w d u)
    as [(cause & Hrun & Hs & _) | (Hrun & Hs & _)];
    fold run in Hrun, Hs; rewrite Hs.
  - repeat split; try reflexivity; try apply Hcurrent.
    rewrite Hrun. discriminate.
  - unfold storedDomains at 1 3. cbn.
    split. { apply lookup_insert_ne. exact Hne. }
    repeat split; try reflexivity; try apply Hcurrent.
    intros _. apply lookup_insert_eq.
Qed.

Lemma updateDomainData_frame_witness :
  "example.com" <> "other.org"
  /\ storedDomains
       (store (snd (StorageManager.updateDomainData "example.com"
                      (DomainData.mkPartial (Some Num.one) None None None)
                      Scenario.reliable Scenario.visited)))
     !! "other.org"
     = storedDomains (store Scenario.visited) !! "other.org".
Proof.
  assert (Hne : "example.com" <> "other.org") by discriminate.
  split; [exact Hne |].
  exact (proj1 (updateDomainData_frame Scenario.reliable Scenario.visited
                  "example.com" "other.org"
                  (DomainData.mkPartial (Some Num.one) None None None) Hne)).
Defined.

(** ** Stopping a session *)

Section Folding.
Variable h : Host.

Lemma getDomainData_ok w d :
  fault h (calls w) = None ->
  StorageManager.getDomainData d h w
  = match storedEntry (store w) d with
    | Some record => (Ok record, Browser.called w)
    | None =>
        (Ok (DomainData.whole (emptyAt (dateNow h (dateReads w)))),
         Browser.dateRead (Browser.called w))
    end.
Proof.
  intros Hf. unfold StorageManager.getDomainData, tryCatch, bind.
  rewrite (get_ok h w _ Hf).
  change (StorageSchema.domains' (StorageSchema.project [StorageSchema.Domains] (store w)))
    with (StorageSchema.domains' (store w)).
  fold (storedEntry (store w) d).
  destruct (storedEntry (store w) d); reflexivity.
Qed.

(** the read of [getDomainData] is best effort: it never throws, writes
    nothing and calls the storage area once *)
Lemma getDomainData_total w d :
  exists record w',
    StorageManager.getDomainData d h w = (Ok record, w')
    /\ store w' = store w
    /\ sets w' = sets w
    /\ calls w' = S (calls w).
Proof.
  destruct (fault h (calls w)) as [e |] eqn:Ef.
  - unfold StorageManager.getDomainData, tryCatch, bind.
    rewrite (get_failed h w _ e Ef). cbn. eexists. eexists.
    repeat split; reflexivity.
  - rewrite (getDomainData_ok w d Ef).
    destruct (storedEntry (store w) d); eexists; eexists;
      repeat split; reflexivity.
Qed.

Lemma updateDomainData_ok w d u :
  fault h (calls w) = None ->
  fault h (S (calls w)) = None ->
  let found := DomainData.read (storedDomains (store w)) d in
  exists w',
    StorageManager.updateDomainData d u h w = (Ok tt, w')
    /\ store w'
       = StorageSchema.assign
           (StorageSchema.mkPartial
              (Some (<[d := DomainData.merge
                               (default (DomainData.whole
                                           (emptyAt (dateNow h (dateReads w))))
                                        found)
                               u
                               (Num.ofZ (dateNow h
                                  (match found with
                                   | Some _ => dateReads w
                                   | None => S (dateReads w)
                                   end)))]>
                       (storedDomains (store w))))
              None None None None)
           (store w)
    /\ calls w' = S (S (calls w))
    /\ perfReads w' = perfReads w.
Proof.
  intros Hget Hset. cbv zeta.
  unfold StorageManager.updateDomainData, tryCatch, bind.
  rewrite (get_ok h w _ Hget).
  change (StorageSchema.domains' (StorageSchema.project [StorageSchema.Domains] (store w)))
    with (StorageSchema.domains' (store w)).
  change (default ∅ (StorageSchema.domains' (store w)))
    with (storedDomains (store w)).
  unfold StorageManager.set, tryCatch, Browser.storage_set.
  destruct (DomainData.read (storedDomains (store w)) d) as [record |]; cbn;
    rewrite Hset; cbn; eexists; repeat split; reflexivity.
Qed.

(** the fold of [TimeTracker]: when it throws, nothing was written *)
Lemma fold_thrown w d session e :
  fst (TimeTracker.updateDomainData d session h w) = Throw e ->
  store (snd (TimeTracker.updateDomainData d session h w)) = store w
  /\ sets (snd (TimeTracker.updateDomainData d session h w)) = sets w.
Proof.
  unfold TimeTracker.updateDomainData, tryCatch, bind.
  destruct (getDomainData_total w d) as (record & w1 & -> & Hs1 & Hl1 & _).
  cbn.
  destruct (DomainData.dailyStats' record) as [dailyStats |]; cbn;
    [| intros _; split; assumption].
  destruct (DomainData.sessions' record) as [sessions |]; cbn;
    [| intros _; split; assumption].
  match goal with
  | |- context [StorageManager.updateDomainData d ?u h ?w2] =>
      destruct (updateDomainData_cases h w2 d u)
        as [(cause & Hrun & Hs & Hl) | (Hrun & Hs & Hl)];
      destruct (StorageManager.updateDomainData d u h w2) as [r w3]
  end; cbn in *; subst r.
  - unfold throw. cbn. intros _. split; congruence.
  - discriminate.
Qed.

(** a domain whose name [Object.prototype] has, and that the stored map
    does not own, has for [getDomainData] a record without fields: the
    fold throws a [TypeError] on reading its [dailyStats], after one
    call to the storage area and one reading of the clock *)
Lemma fold_inherited w d session ds :
  fault h (calls w) = None ->
  StorageSchema.domains' (store w) = Some ds ->
  ds !! d = None ->
  inherited d = true ->
  TimeTracker.updateDomainData d session h w
  = (Throw (JsTypeError (cannotRead h (isoDate h (dateNow h (dateReads w))))),
     Browser.dateRead (Browser.called w)).
Proof.
  intros Hf Hds Hown Hin.
  unfold TimeTracker.updateDomainData, tryCatch, bind.
  rewrite (getDomainData_ok w d Hf).
  unfold storedEntry. rewrite Hds. cbn. unfold DomainData.read.
  rewrite Hown, Hin. reflexivity.
Qed.

End Folding.

(** C10: when [stopSession] has read an active session and the fold of
    the completed session into the data of its domain throws, then
    [stopSession] throws that error wrapped, and the slot still holds the
    session: nothing at all was written, so the stop can be tried again. *)
Theorem stopSession_keeps_session_when_fold_fails h w (s : ActiveSession.t) e :
  StorageSchema.activeSession' (store w) = Some (Some s) ->
  fault h (calls w) = None ->
  let endTime := performanceNow h (perfReads w) in
  let completed :=
    Session.mk (ActiveSession.startTime s) (Some endTime)
               (Num.max0 (Num.sub endTime (ActiveSession.startTime s)))
               (ActiveSession.tabId s) (ActiveSession.windowId s) in
  let fold :=
    TimeTracker.updateDomainData (ActiveSession.domain s) completed h
      (Browser.perfRead (Browser.called w)) in
  fst fold = Throw e ->
  TimeTracker.stopSession h w
  = (Throw (JsError ("Failed to stop session: " +:+ render e)), snd fold)
  /\ StorageSchema.activeSession' (store (snd fold)) = Some (Some s)
  /\ store (snd fold) = store w.
Proof.
  intros Hslot Hread endTime completed fold Hfold.
  destruct (fold_thrown h _ _ _ e Hfold) as [Hstore _]. fold fold in Hstore.
  cbn in Hstore.
  split; [| split; [rewrite Hstore; exact Hslot | exact Hstore]].
  unfold TimeTracker.stopSession, tryCatch, bind.
  rewrite (getActiveSession_ok h w Hread), Hslot. cbn.
  fold endTime. fold completed. fold fold.
  destruct fold as [r w']. cbn in Hfold. subst r. reflexivity.
Qed.

Lemma stopSession_keeps_session_when_fold_fails_witness :
  fst (TimeTracker.stopSession (Scenario.failingAt 3) Scenario.tracking)
  = Throw (JsError ("Failed to stop session: Error: "
                    +:+ "Failed to update domain data for example.com: Error: "
                    +:+ "Failed to set storage data: Error: Storage error"))
  /\ StorageSchema.activeSession'
       (store (snd (TimeTracker.stopSession (Scenario.failingAt 3)
                      Scenario.tracking)))
     = Some (Some Scenario.visit).
Proof.
  destruct (stopSession_keeps_session_when_fold_fails
              (Scenario.failingAt 3) Scenario.tracking Scenario.visit
              (JsError ("Failed to update domain data for example.com: Error: "
                        +:+ "Failed to set storage data: Error: Storage error"))
              eq_refl eq_refl eq_refl)
    as (Hrun & Hslot & _).
  rewrite Hrun. split; [reflexivity | exact Hslot].
Defined.

(** C2: [stopSession] does not fold every session it reads.  When the
    domain of the running session is a name that [Object.prototype] has
    ([constructor], [toString], ...) and the stored domains map exists
    without an entry of its own for that name, [getDomainData] returns
    the inherited member where its documentation promises an empty
    structure; reading [dailyStats] of it gives [undefined], and
    [stopSession] throws a [TypeError] wrapped as
    [Failed to stop session: TypeError: ...].  No session is returned,
    nothing is written: the domain gets no record and the slot keeps the
    session. *)
Theorem stopSession_inherited_domain_throws h w (s : ActiveSession.t) ds :
  fault h (calls w) = None ->
  fault h (S (calls w)) = None ->
  StorageSchema.activeSession' (store w) = Some (Some s) ->
  StorageSchema.domains' (store w) = Some ds ->
  ds !! ActiveSession.domain s = None ->
  inherited (ActiveSession.domain s) = true ->
  let date := isoDate h (dateNow h (dateReads w)) in
  let run := TimeTracker.stopSession h w in
  fst run
  = Throw (JsError ("Failed to stop session: "
                    +:+ render (JsTypeError (cannotRead h date))))
  /\ store (snd run) = store w
  /\ sets (snd run) = sets w
  /\ persistedSessions (store (snd run)) = [s]
  /\ storedDomains (store (snd run)) !! ActiveSession.domain s = None.
Proof.
  intros Hread Hget Hslot Hds Hown Hin date run.
  assert (Hrun : run
                 = (Throw (JsError ("Failed to stop session: "
                                    +:+ render (JsTypeError (cannotRead h date)))),
                    Browser.dateRead
                      (Browser.called (Browser.perfRead (Browser.called w))))).
  { unfold run, TimeTracker.stopSession, tryCatch, bind.
    rewrite (getActiveSession_ok h w Hread), Hslot. cbn.
    match goal with
    | |- context [TimeTracker.updateDomainData ?d ?c h ?w1] =>
        rewrite (fold_inherited h w1 d c ds Hget Hds Hown Hin)
    end.
    reflexivity. }
  rewrite Hrun. cbn.
  split; [reflexivity |]. split; [reflexivity |]. split; [reflexivity |].
  split; [unfold persistedSessions; rewrite Hslot; reflexivity |].
  unfold storedDomains. rewrite Hds. exact Hown.
Qed.

(** the failing input: the bookkeeping of [Scenario.visited] with a visit
    to [http://constructor/] running *)
Lemma stopSession_inherited_domain_throws_witness :
  fst (TimeTracker.stopSession Scenario.reliable Scenario.oddTracking)
  = Throw (JsError ("Failed to stop session: TypeError: "
                    +:+ "Cannot read properties of undefined "
                    +:+ "(reading '2022-01-01')"))
  /\ persistedSessions
       (store (snd (TimeTracker.stopSession Scenario.reliable
                      Scenario.oddTracking)))
     = [Scenario.oddVisit]
  /\ storedDomains
       (store (snd (TimeTracker.stopSession Scenario.reliable
                      Scenario.oddTracking)))
     !! "constructor" = None.
Proof.
  destruct (stopSession_inherited_domain_throws
              Scenario.reliable Scenario.oddTracking Scenario.oddVisit
              _ eq_refl eq_refl eq_refl eq_refl eq_refl eq_refl)
    as (Hrun & _ & _ & Hslot & Hnone).
  split; [exact Hrun |]. split; [exact Hslot | exact Hnone].
Defined.

(** ** Extracting the domain *)

Lemma splitGo_nonempty sep s : forall skip cur, Str.splitGo sep skip cur s <> [].
Proof.
  induction s as [| c r IH]; intros skip cur.
  - simpl. congruence.
  - cbn [Str.splitGo]. destruct skip; [| apply IH].
    destruct (String.prefix sep (String c r)); [congruence | apply IH].
Qed.

Lemma split_chrome rest :
  Str.split "://" ("chrome://" +:+ rest) = "chrome" :: Str.split "://" rest.
Proof. destruct rest; reflexivity. Qed.

Lemma split_moz_extension rest :
  Str.split "://" ("moz-extension://" +:+ rest)
  = "moz-extension" :: Str.split "://" rest.
Proof. destruct rest; reflexivity. Qed.

(** what the branch of the special protocols does for [chrome://] *)
Lemma extractDomain_chrome h rest :
  TimeTracker.extractDomain h ("chrome://" +:+ rest) = "chrome".
Proof.
  unfold TimeTracker.extractDomain.
  replace (Str.startsWith ("chrome://" +:+ rest) "chrome://") with true
    by (destruct rest; reflexivity).
  cbn [Str.isEmpty String.app orb]. rewrite split_chrome.
  pose proof (splitGo_nonempty "://" rest 0 "") as Hne.
  unfold Str.split. destruct (Str.splitGo "://" 0 "" rest); [contradiction |].
  reflexivity.
Qed.

(** and for [moz-extension://] *)
Lemma extractDomain_moz_extension h rest :
  TimeTracker.extractDomain h ("moz-extension://" +:+ rest) = "moz-extension".
Proof.
  unfold TimeTracker.extractDomain.
  replace (Str.startsWith ("moz-extension://" +:+ rest) "moz-extension://")
    with true by (destruct rest; reflexivity).
  rewrite orb_true_r. cbn [Str.isEmpty String.app orb].
  rewrite split_moz_extension.
  pose proof (splitGo_nonempty "://" rest 0 "") as Hne.
  unfold Str.split. destruct (Str.splitGo "://" 0 "" rest); [contradiction |].
  reflexivity.
Qed.

(** C6 on the code: for the [about:] URL [about:blank] the branch of the
    special protocols is taken, but the split on [://] finds no separator,
    and [extractDomain] returns [unknown], not the scheme token [about];
    for [chrome://extensions] it returns [chrome]. *)
Theorem extractDomain_about_blank h :
  Str.startsWith "about:blank" "about:" = true
  /\ Str.split "://" "about:blank" = ["about:blank"]
  /\ TimeTracker.extractDomain h "about:blank" = "unknown"
  /\ TimeTracker.extractDomain h "chrome://extensions" = "chrome".
Proof. repeat split; reflexivity. Qed.

(** * Further properties of the code *)

(** ** The duration calculator *)

Lemma ltZero_Finite (r : Qc) : Num.ltZero (Finite r) = true <-> (this r < 0)%Q.
Proof.
  unfold Num.ltZero, Qccompare. change (this (Qc_of_Z 0)) with 0%Q.
  rewrite Qlt_alt. destruct (this r ?= 0)%Q; split; congruence.
Qed.

Lemma ltZero_max0 x : Num.ltZero (Num.max0 x) = false.
Proof.
  destruct x as [| [|] | r]; try reflexivity.
  unfold Num.max0. destruct (Num.ltZero (Finite r)) eqn:E; [reflexivity | exact E].
Qed.

(** X1: [calculateDuration] never returns a negative number, whatever the two
    instants are (the result is [NaN] only when an instant is [NaN] or both
    are the same infinity); given an end time it does not read the clock,
    without one it reads [performance.now()] once. *)
Theorem calculateDuration_never_negative start (finish : option number) h w :
  exists d,
    TimeTracker.calculateDuration start finish h w
    = (Ok d, match finish with Some _ => w | None => Browser.perfRead w end)
    /\ Num.ltZero d = false.
Proof.
  unfold TimeTracker.calculateDuration, bind.
  destruct finish as [e |]; cbn; eexists; (split; [reflexivity | apply ltZero_max0]).
Qed.

Lemma minus_this (p q : Qc) : (this (q - p)%Qc == this q - this p)%Q.
Proof.
  unfold Qcminus, Qcplus, Qcopp, Q2Qc. cbn. rewrite !Qred_correct. reflexivity.
Qed.

Lemma Finite_zero (r : Qc) : (this r == 0)%Q -> Finite r = Num.zero.
Proof.
  intros H. unfold Num.zero, Num.ofZ. f_equal. apply Qc_is_canon. exact H.
Qed.

(** X2: When the clock went backwards (the end is not after the start),
    [calculateDuration] returns [0] and reads no clock. *)
Theorem calculateDuration_backwards (p q : Qc) h w :
  (q <= p)%Qc ->
  TimeTracker.calculateDuration (Finite p) (Some (Finite q)) h w = (Ok Num.zero, w).
Proof.
  intros Hle. unfold Qcle in Hle.
  change (TimeTracker.calculateDuration (Finite p) (Some (Finite q)) h w)
    with (Ok (if Num.ltZero (Finite (q - p)%Qc) then Num.zero
              else Finite (q - p)%Qc), w).
  pose proof (minus_this p q) as Hthis.
  destruct (Num.ltZero (Finite (q - p)%Qc)) eqn:E; [reflexivity |].
  rewrite Finite_zero; [reflexivity |].
  assert (Hn : ~ (this (q - p)%Qc < 0)%Q).
  { intros H. apply ltZero_Finite in H. congruence. }
  rewrite Hthis in *. lra.
Qed.

Lemma calculateDuration_backwards_witness :
  (Qc_of_Z 3000 <= Qc_of_Z 5000)%Qc
  /\ TimeTracker.calculateDuration (Num.ofZ 5000) (Some (Num.ofZ 3000))
       Scenario.reliable Scenario.fresh
     = (Ok Num.zero, Scenario.fresh).
Proof.
  assert (H : (Qc_of_Z 3000 <= Qc_of_Z 5000)%Qc) by (intros E; discriminate E).
  split; [exact H |].
  exact (calculateDuration_backwards (Qc_of_Z 5000) (Qc_of_Z 3000)
           Scenario.reliable Scenario.fresh H).
Defined.

(** ** The engine on an empty slot *)

Lemma getActiveSession_idle h w :
  fault h (calls w) <> None
  \/ default None (StorageSchema.activeSession' (store w)) = None ->
  StorageManager.getActiveSession h w = (Ok None, Browser.called w).
Proof.
  intros H. destruct (fault h (calls w)) as [e |] eqn:Ef.
  - apply (getActiveSession_failed h w e Ef).
  - rewrite (getActiveSession_ok h w Ef). destruct H as [H | ->]; [congruence | reflexivity].
Qed.

(** X4: With no session in the slot (the key missing or [null]) or with the
    read of the slot rejected, [stopSession], [pauseSession] and
    [resumeSession] return [null] without throwing; they have asked the
    storage area for that one read and written nothing. *)
Theorem idle_calls_return_null h w :
  fault h (calls w) <> None
  \/ default None (StorageSchema.activeSession' (store w)) = None ->
  TimeTracker.stopSession h w = (Ok None, Browser.called w)
  /\ TimeTracker.pauseSession h w = (Ok None, Browser.called w)
  /\ TimeTracker.resumeSession h w = (Ok None, Browser.called w).
Proof.
  intros H.
  unfold TimeTracker.stopSession, TimeTracker.pauseSession,
    TimeTracker.resumeSession, tryCatch, bind.
  rewrite (getActiveSession_idle h w H). repeat split; reflexivity.
Qed.

Lemma idle_calls_return_null_witness :
  TimeTracker.stopSession Scenario.reliable Scenario.fresh
  = (Ok None, Browser.called Scenario.fresh)
  /\ store (Browser.called Scenario.fresh) = store Scenario.fresh.
Proof.
  split; [| reflexivity].
  exact (proj1 (idle_calls_return_null Scenario.reliable Scenario.fresh
                  (or_intror eq_refl))).
Defined.

(** ** Pausing and resuming *)

Section Flag.
Variable h : Host.
Variable w : World.
Variable s : ActiveSession.t.
Hypothesis Hslot : StorageSchema.activeSession' (store w) = Some (Some s).
Hypothesis Hread : fault h (calls w) = None.

Lemma pauseSession_written :
  fault h (S (calls w)) = None ->
  TimeTracker.pauseSession h w
  = (Ok (Some (ActiveSession.withPaused s true)),
     Browser.written
       (StorageSchema.mkPartial None
          (Some (Some (ActiveSession.withPaused s true))) None None None)
       (Browser.called w)).
Proof.
  intros Hw. unfold TimeTracker.pauseSession, tryCatch, bind.
  rewrite (getActiveSession_ok h w Hread), Hslot.
  change (default None (Some (Some s))) with (Some s). cbv beta iota.
  rewrite (setActiveSession_ok h (Browser.called w) _ Hw). reflexivity.
Qed.

Lemma resumeSession_written :
  fault h (S (calls w)) = None ->
  TimeTracker.resumeSession h w
  = (Ok (Some (ActiveSession.withPaused s false)),
     Browser.written
       (StorageSchema.mkPartial None
          (Some (Some (ActiveSession.withPaused s false))) None None None)
       (Browser.called w)).
Proof.
  intros Hw. unfold TimeTracker.resumeSession, tryCatch, bind.
  rewrite (getActiveSession_ok h w Hread), Hslot.
  change (default None (Some (Some s))) with (Some s). cbv beta iota.
  rewrite (setActiveSession_ok h (Browser.called w) _ Hw). reflexivity.
Qed.

End Flag.

Lemma assign_slot_twice (st : StorageSchema.partial) a b :
  StorageSchema.assign (StorageSchema.mkPartial None (Some b) None None None)
    (StorageSchema.assign (StorageSchema.mkPartial None (Some a) None None None) st)
  = StorageSchema.assign (StorageSchema.mkPartial None (Some b) None None None) st.
Proof. reflexivity. Qed.

Lemma assign_slot_same (st : StorageSchema.partial) a :
  StorageSchema.activeSession' st = Some a ->
  StorageSchema.assign (StorageSchema.mkPartial None (Some a) None None None) st = st.
Proof. destruct st; cbn. intros ->. reflexivity. Qed.

(** X5: Pausing a running session and resuming it is a round trip: when the
    slot holds a session that is not paused and the storage area rejects
    none of the four calls, [pauseSession] stores the session with
    [isPaused = true] and nothing else changed, and [resumeSession] then
    returns the original session and leaves the stored object exactly as
    it was before the pause. *)
Theorem pause_resume_round_trip h w (s : ActiveSession.t) :
  StorageSchema.activeSession' (store w) = Some (Some s) ->
  ActiveSession.isPaused s = Some false ->
  (forall k, k < 4 -> fault h (calls w + k) = None) ->
  let paused := TimeTracker.pauseSession h w in
  let resumed := TimeTracker.resumeSession h (snd paused) in
  fst paused = Ok (Some (ActiveSession.withPaused s true))
  /\ persistedSessions (store (snd paused)) = [ActiveSession.withPaused s true]
  /\ fst resumed = Ok (Some s)
  /\ store (snd resumed) = store w.
Proof.
  intros Hslot Hrun Hok paused resumed.
  assert (H0 : fault h (calls w) = None) by (rewrite <- (Nat.add_0_r (calls w)); apply Hok; lia).
  assert (H1 : fault h (S (calls w)) = None) by (rewrite <- Nat.add_1_r; apply Hok; lia).
  assert (H2 : fault h (S (S (calls w))) = None)
    by (replace (S (S (calls w))) with (calls w + 2) by lia; apply Hok; lia).
  assert (H3 : fault h (S (S (S (calls w)))) = None)
    by (replace (S (S (S (calls w)))) with (calls w + 3) by lia; apply Hok; lia).
  assert (Hs : ActiveSession.withPaused (ActiveSession.withPaused s true) false = s).
  { destruct s; cbn in *. subst. reflexivity. }
  subst resumed paused.
  rewrite (pauseSession_written h w s Hslot H0 H1). cbn [fst snd].
  split; [reflexivity |]. split; [reflexivity |].
  match goal with
  | |- context [TimeTracker.resumeSession h ?w1] =>
      rewrite (resumeSession_written h w1 (ActiveSession.withPaused s true)
                 eq_refl H2 H3)
  end.
  cbn [fst snd]. rewrite Hs. split; [reflexivity |].
  cbn [store Browser.written Browser.called]. rewrite assign_slot_twice.
  apply assign_slot_same. exact Hslot.
Qed.

Lemma pause_resume_round_trip_witness :
  (forall k, k < 4 -> fault Scenario.reliable (calls Scenario.tracking + k) = None)
  /\ store (snd (TimeTracker.resumeSession Scenario.reliable
                   (snd (TimeTracker.pauseSession Scenario.reliable
                           Scenario.tracking))))
     = store Scenario.tracking.
Proof.
  assert (Hok : forall k, k < 4 ->
                  fault Scenario.reliable (calls Scenario.tracking + k) = None)
    by (intros k _; reflexivity).
  split; [exact Hok |].
  exact (proj2 (proj2 (proj2 (pause_resume_round_trip Scenario.reliable
                                Scenario.tracking Scenario.visit
                                eq_refl eq_refl Hok)))).
Defined.

(** X6: Pausing twice is pausing once: a second [pauseSession] returns the
    same paused session and leaves the stored object as the first left
    it. *)
Theorem pauseSession_idempotent h w (s : ActiveSession.t) :
  StorageSchema.activeSession' (store w) = Some (Some s) ->
  (forall k, k < 4 -> fault h (calls w + k) = None) ->
  let once := TimeTracker.pauseSession h w in
  let twice := TimeTracker.pauseSession h (snd once) in
  fst twice = fst once /\ store (snd twice) = store (snd once).
Proof.
  intros Hslot Hok once twice.
  assert (H0 : fault h (calls w) = None) by (rewrite <- (Nat.add_0_r (calls w)); apply Hok; lia).
  assert (H1 : fault h (S (calls w)) = None) by (rewrite <- Nat.add_1_r; apply Hok; lia).
  assert (H2 : fault h (S (S (calls w))) = None)
    by (replace (S (S (calls w))) with (calls w + 2) by lia; apply Hok; lia).
  assert (H3 : fault h (S (S (S (calls w)))) = None)
    by (replace (S (S (S (calls w)))) with (calls w + 3) by lia; apply Hok; lia).
  subst twice once.
  rewrite (pauseSession_written h w s Hslot H0 H1). cbn [fst snd].
  match goal with
  | |- context [TimeTracker.pauseSession h ?w1] =>
      rewrite (pauseSession_written h w1 (ActiveSession.withPaused s true)
                 eq_refl H2 H3)
  end.
  cbn [fst snd store Browser.written Browser.called].
  split; [reflexivity | apply assign_slot_twice].
Qed.

Lemma pauseSession_idempotent_witness :
  (forall k, k < 4 -> fault Scenario.reliable (calls Scenario.tracking + k) = None)
  /\ store (snd (TimeTracker.pauseSession Scenario.reliable
                   (snd (TimeTracker.pauseSession Scenario.reliable
                           Scenario.tracking))))
     = store (snd (TimeTracker.pauseSession Scenario.reliable Scenario.tracking)).
Proof.
  assert (Hok : forall k, k < 4 ->
                  fault Scenario.reliable (calls Scenario.tracking + k) = None)
    by (intros k _; reflexivity).
  split; [exact Hok |].
  exact (proj2 (pauseSession_idempotent Scenario.reliable Scenario.tracking
                  Scenario.visit eq_refl Hok)).
Defined.

(** ** Starting on a free slot, stopping, and what a failure leaves *)

Lemma startSession_free domain tabId windowId h w :
  Str.trim domain <> "" ->
  nonNegativeInteger tabId ->
  nonNegativeInteger windowId ->
  fault h (calls w) <> None
  \/ default None (StorageSchema.activeSession' (store w)) = None ->
  fault h (S (calls w)) = None ->
  let session :=
    ActiveSession.mk (Str.trim domain) (performanceNow h (perfReads w))
                     tabId windowId (Some false) in
  TimeTracker.startSession domain tabId windowId h w
  = (Ok session,
     Browser.written
       (StorageSchema.mkPartial None (Some (Some session)) None None None)
       (Browser.perfRead (Browser.called w))).
Proof.
  intros Hd Ht Hw Hfree Hset session.
  rewrite (startSession_valid domain tabId windowId h w Hd Ht Hw).
  unfold tryCatch, bind. rewrite (getActiveSession_idle h w Hfree).
  unfold Browser.performance_now.
  rewrite (setActiveSession_ok h (Browser.perfRead (Browser.called w)) _ Hset).
  reflexivity.
Qed.

Section Stopping.
Variable h : Host.

(** the fold when the storage area rejects none of its three calls and
    the entry of the domain is missing or a complete record *)
Lemma fold_ok w d session (prior : option DomainData.t) :
  (forall k, k < 3 -> fault h (calls w + k) = None) ->
  storedEntry (store w) d = DomainData.whole <$> prior ->
  let date :=
    isoDate h (dateNow h (match prior with
                          | Some _ => dateReads w
                          | None => S (dateReads w)
                          end)) in
  exists w' stamp,
    TimeTracker.updateDomainData d session h w = (Ok tt, w')
    /\ store w'
       = StorageSchema.assign
           (StorageSchema.mkPartial
              (Some (<[d := DomainData.whole (folded prior date session stamp)]>
                       (storedDomains (store w))))
              None None None None)
           (store w)
    /\ calls w' = calls w + 3
    /\ perfReads w' = perfReads w.
Proof.
  intros Hok Hentry. cbv zeta.
  assert (H0 : fault h (calls w) = None)
    by (rewrite <- (Nat.add_0_r (calls w)); apply Hok; lia).
  assert (H1 : fault h (S (calls w)) = None)
    by (rewrite <- Nat.add_1_r; apply Hok; lia).
  assert (H2 : fault h (S (S (calls w))) = None)
    by (replace (S (S (calls w))) with (calls w + 2) by lia; apply Hok; lia).
  unfold TimeTracker.updateDomainData, tryCatch, bind.
  rewrite (getDomainData_ok h w d H0), Hentry.
  destruct prior as [before |]; cbn.
  - match goal with
    | |- context [StorageManager.updateDomainData d ?u h ?w2] =>
        destruct (updateDomainData_ok h w2 d u H1 H2) as (w3 & -> & Hs & Hc & Hp)
    end.
    eexists. eexists. split; [reflexivity |]. cbn in Hs, Hc, Hp |- *.
    split; [exact Hs |]. split; [lia | exact Hp].
  - match goal with
    | |- context [StorageManager.updateDomainData d ?u h ?w2] =>
        destruct (updateDomainData_ok h w2 d u H1 H2) as (w3 & -> & Hs & Hc & Hp)
    end.
    eexists. eexists. split; [reflexivity |]. cbn in Hs, Hc, Hp |- *.
    split; [exact Hs |]. split; [lia | exact Hp].
Qed.

End Stopping.

Section StopRuns.
Variable h : Host.
Variable w : World.
Variable s : ActiveSession.t.
Variable prior : option DomainData.t.
Hypothesis Hslot : StorageSchema.activeSession' (store w) = Some (Some s).
Hypothesis Hentry :
  storedEntry (store w) (ActiveSession.domain s) = DomainData.whole <$> prior.

Lemma stopSession_reaches_clear :
  (forall k, k < 4 -> fault h (calls w + k) = None) ->
  let completed := completedAt s (performanceNow h (perfReads w)) in
  let date :=
    isoDate h (dateNow h (match prior with
                          | Some _ => dateReads w
                          | None => S (dateReads w)
                          end)) in
  exists w1 stamp,
    store w1
    = StorageSchema.assign
        (StorageSchema.mkPartial
           (Some (<[ActiveSession.domain s :=
                      DomainData.whole (folded prior date completed stamp)]>
                    (storedDomains (store w))))
           None None None None)
        (store w)
    /\ calls w1 = calls w + 4
    /\ perfReads w1 = S (perfReads w)
    /\ TimeTracker.stopSession h w
       = tryCatch
           (StorageManager.setActiveSession None ;;; ret (Some completed))
           (fun error =>
              throw (JsError ("Failed to stop session: " +:+ render error)))
           h w1.
Proof.
  intros Hok. cbv zeta.
  assert (H0 : fault h (calls w) = None)
    by (rewrite <- (Nat.add_0_r (calls w)); apply Hok; lia).
  destruct (fold_ok h (Browser.perfRead (Browser.called w))
              (ActiveSession.domain s)
              (completedAt s (performanceNow h (perfReads w))) prior)
    as (w1 & stamp & Hfold & Hstore & Hcalls & Hperf).
  { intros k Hk. cbn. replace (S (calls w + k)) with (calls w + S k) by lia.
    apply Hok. lia. }
  { exact Hentry. }
  exists w1, stamp. cbn in Hstore, Hcalls, Hperf.
  split; [exact Hstore |]. split; [lia |]. split; [exact Hperf |].
  unfold TimeTracker.stopSession, tryCatch, bind.
  rewrite (getActiveSession_ok h w H0), Hslot.
  change (default None (Some (Some s))) with (Some s). cbv beta iota.
  unfold Browser.performance_now, TimeTracker.calculateDuration, bind, ret.
  change (perfReads (Browser.called w)) with (perfReads w).
  fold (completedAt s (performanceNow h (perfReads w))).
  rewrite Hfold. reflexivity.
Qed.

End StopRuns.

Lemma stopSession_run h w (s : ActiveSession.t) (prior : option DomainData.t) :
  StorageSchema.activeSession' (store w) = Some (Some s) ->
  storedEntry (store w) (ActiveSession.domain s) = DomainData.whole <$> prior ->
  (forall k, k < 5 -> fault h (calls w + k) = None) ->
  let completed := completedAt s (performanceNow h (perfReads w)) in
  let date :=
    isoDate h (dateNow h (match prior with
                          | Some _ => dateReads w
                          | None => S (dateReads w)
                          end)) in
  exists w' stamp,
    TimeTracker.stopSession h w = (Ok (Some completed), w')
    /\ store w'
       = StorageSchema.assign
           (StorageSchema.mkPartial None (Some None) None None None)
           (StorageSchema.assign
              (StorageSchema.mkPartial
                 (Some (<[ActiveSession.domain s :=
                            DomainData.whole (folded prior date completed stamp)]>
                          (storedDomains (store w))))
                 None None None None)
              (store w))
    /\ calls w' = calls w + 5
    /\ perfReads w' = S (perfReads w).
Proof.
  intros Hslot Hentry Hok. cbv zeta.
  destruct (stopSession_reaches_clear h w s prior Hslot Hentry)
    as (w1 & stamp & Hstore & Hcalls & Hperf & ->).
  { intros k Hk. apply Hok. lia. }
  assert (H4 : fault h (calls w1) = None) by (rewrite Hcalls; apply Hok; lia).
  unfold tryCatch, bind. rewrite (setActiveSession_ok h w1 None H4).
  eexists. exists stamp. split; [reflexivity |]. cbn.
  rewrite Hstore, Hcalls, Hperf. split; [reflexivity |]. split; [lia | reflexivity].
Qed.

(** X7: When the fold has been written and the write that clears the slot is
    rejected, [stopSession] throws the wrapped error, the record of the
    domain already counts the session, and the slot still holds the
    session: stopping again will fold the same visit a second time.  Here
    [getDomainData] finds for the domain of the session a complete record
    or nothing ([prior]); a name that [Object.prototype] has and the
    stored map does not own is found as a record without fields, and is
    not such a domain. *)
Theorem stopSession_clear_rejected h w (s : ActiveSession.t)
    (prior : option DomainData.t) e :
  StorageSchema.activeSession' (store w) = Some (Some s) ->
  storedEntry (store w) (ActiveSession.domain s) = DomainData.whole <$> prior ->
  (forall k, k < 4 -> fault h (calls w + k) = None) ->
  fault h (calls w + 4) = Some e ->
  let completed := completedAt s (performanceNow h (perfReads w)) in
  let date :=
    isoDate h (dateNow h (match prior with
                          | Some _ => dateReads w
                          | None => S (dateReads w)
                          end)) in
  exists w' stamp,
    TimeTracker.stopSession h w
    = (Throw (JsError ("Failed to stop session: Error: "
                       +:+ "Failed to set active session: Error: "
                       +:+ "Failed to set storage data: " +:+ render e)), w')
    /\ storedDomains (store w') !! ActiveSession.domain s
       = Some (DomainData.whole (folded prior date completed stamp))
    /\ StorageSchema.activeSession' (store w') = Some (Some s).
Proof.
  intros Hslot Hentry Hok Hbad. cbv zeta.
  destruct (stopSession_reaches_clear h w s prior Hslot Hentry Hok)
    as (w1 & stamp & Hstore & Hcalls & Hperf & ->).
  assert (H4 : fault h (calls w1) = Some e) by (rewrite Hcalls; exact Hbad).
  unfold tryCatch, bind. rewrite (setActiveSession_failed h w1 None e H4).
  eexists. exists stamp. split; [reflexivity |].
  cbn. rewrite Hstore. unfold storedDomains at 1. cbn.
  split; [apply lookup_insert_eq | exact Hslot].
Qed.

Lemma stopSession_clear_rejected_witness :
  fault (Scenario.failingAt 4) (calls Scenario.visited + 4)
  = Some (JsError "Storage error")
  /\ exists w' record,
       fst (TimeTracker.stopSession (Scenario.failingAt 4) Scenario.visited)
       = Throw (JsError ("Failed to stop session: Error: "
                         +:+ "Failed to set active session: Error: "
                         +:+ "Failed to set storage data: Error: Storage error"))
       /\ w' = snd (TimeTracker.stopSession (Scenario.failingAt 4) Scenario.visited)
       /\ storedDomains (store w') !! "example.com"
          = Some (DomainData.whole record)
       /\ length (DomainData.sessions record) = 1
       /\ StorageSchema.activeSession' (store w') = Some (Some Scenario.visit).
Proof.
  split; [reflexivity |].
  destruct (stopSession_clear_rejected (Scenario.failingAt 4) Scenario.visited
              Scenario.visit
              (Some (DomainData.mk (Num.ofZ 5000) []
                       {["2022-01-01" := Num.ofZ 2000]} (Num.ofZ 1640995100000)))
              (JsError "Storage error") eq_refl eq_refl)
    as (w' & stamp & Hrun & Hrecord & Hkept).
  { intros k Hk. do 4 (destruct k as [| k]; [reflexivity |]). lia. }
  { reflexivity. }
  exists w'. eexists. rewrite Hrun. cbn [fst snd].
  split; [reflexivity |]. split; [reflexivity |].
  split; [exact Hrecord |]. split; [reflexivity | exact Hkept].
Defined.

Lemma totalOf_snoc l c :
  totalOf (l ++ [c]) = Num.add (totalOf l) (Session.duration c).
Proof. unfold totalOf. rewrite fold_left_app. reflexivity. Qed.

(** X8: [stopSession] keeps the books balanced: if the record of the
    session's domain had [totalTime] equal to the sum of the durations of
    its [sessions] (or the domain had no record), the record it writes has
    that property again.  Here [getDomainData] finds for the domain a
    complete record or nothing ([prior]). *)
Theorem stopSession_keeps_total h w (s : ActiveSession.t)
    (prior : option DomainData.t) :
  StorageSchema.activeSession' (store w) = Some (Some s) ->
  storedEntry (store w) (ActiveSession.domain s) = DomainData.whole <$> prior ->
  (forall k, k < 5 -> fault h (calls w + k) = None) ->
  (forall before,
      prior = Some before ->
      DomainData.totalTime before = totalOf (DomainData.sessions before)) ->
  exists w' record,
    snd (TimeTracker.stopSession h w) = w'
    /\ storedDomains (store w') !! ActiveSession.domain s
       = Some (DomainData.whole record)
    /\ DomainData.sessions record
       = (from_option DomainData.sessions [] prior
          ++ [completedAt s (performanceNow h (perfReads w))])%list
    /\ DomainData.totalTime record = totalOf (DomainData.sessions record).
Proof.
  intros Hslot Hentry Hok Hinv.
  destruct (stopSession_run h w s prior Hslot Hentry Hok)
    as (w' & stamp & Hrun & Hstore & _).
  exists w'. eexists. rewrite Hrun. split; [reflexivity |].
  rewrite Hstore. unfold storedDomains at 1. cbn.
  split; [apply lookup_insert_eq |].
  split; [reflexivity |].
  unfold folded. cbn [DomainData.totalTime DomainData.sessions].
  rewrite totalOf_snoc. f_equal.
  destruct prior as [before |]; cbn; [apply Hinv; reflexivity | reflexivity].
Qed.

(** a record with one visit of four seconds: after the stop it has two
    visits and the total is still the sum of their durations *)
Lemma stopSession_keeps_total_witness :
  (forall before,
      Some Scenario.balancedRecord = Some before ->
      DomainData.totalTime before = totalOf (DomainData.sessions before))
  /\ exists record,
       storedDomains
         (store (snd (TimeTracker.stopSession Scenario.reliable Scenario.balanced)))
       !! "example.com" = Some (DomainData.whole record)
       /\ length (DomainData.sessions record) = 2
       /\ DomainData.totalTime record = totalOf (DomainData.sessions record).
Proof.
  assert (Hinv : forall before,
             Some Scenario.balancedRecord = Some before ->
             DomainData.totalTime before = totalOf (DomainData.sessions before)).
  { intros before H. injection H as <-. symmetry. exact (add_ofZ 0 4000). }
  split; [exact Hinv |].
  destruct (stopSession_keeps_total Scenario.reliable Scenario.balanced
              Scenario.visit (Some Scenario.balancedRecord) eq_refl eq_refl)
    as (w' & record & Hw & Hrecord & Hsessions & Htotal).
  { intros k _. reflexivity. }
  { exact Hinv. }
  exists record. rewrite Hw. split; [exact Hrecord |].
  split; [rewrite Hsessions; reflexivity | exact Htotal].
Defined.

(** X9: Start then stop, on a free slot and with no call rejected: the
    session is stored under the trimmed domain with [isPaused = false];
    the stop returns the visit from the first reading of
    [performance.now()] to the second, with the ids given to the start;
    that visit is folded into the record of the trimmed domain, and the
    slot ends [null].  Here [getDomainData] finds for the trimmed domain a
    complete record or nothing ([prior]). *)
Theorem start_stop_round_trip domain tabId windowId h w
    (prior : option DomainData.t) :
  Str.trim domain <> "" ->
  nonNegativeInteger tabId ->
  nonNegativeInteger windowId ->
  default None (StorageSchema.activeSession' (store w)) = None ->
  storedEntry (store w) (Str.trim domain) = DomainData.whole <$> prior ->
  (forall k, k < 7 -> fault h (calls w + k) = None) ->
  let t0 := performanceNow h (perfReads w) in
  let t1 := performanceNow h (S (perfReads w)) in
  let session := ActiveSession.mk (Str.trim domain) t0 tabId windowId (Some false) in
  let visit := Session.mk t0 (Some t1) (Num.max0 (Num.sub t1 t0)) tabId windowId in
  let date :=
    isoDate h (dateNow h (match prior with
                          | Some _ => dateReads w
                          | None => S (dateReads w)
                          end)) in
  let started := TimeTracker.startSession domain tabId windowId h w in
  let stopped := TimeTracker.stopSession h (snd started) in
  fst started = Ok session
  /\ persistedSessions (store (snd started)) = [session]
  /\ fst stopped = Ok (Some visit)
  /\ persistedSessions (store (snd stopped)) = []
  /\ exists stamp,
       storedDomains (store (snd stopped)) !! Str.trim domain
       = Some (DomainData.whole (folded prior date visit stamp)).
Proof.
  intros Hd Ht Hw Hfree Hentry Hok. cbv zeta.
  assert (H1 : fault h (S (calls w)) = None)
    by (rewrite <- Nat.add_1_r; apply Hok; lia).
  rewrite (startSession_free domain tabId windowId h w Hd Ht Hw (or_intror Hfree) H1).
  cbn [fst snd]. split; [reflexivity |]. split; [reflexivity |].
  match goal with
  | |- context [TimeTracker.stopSession h ?w1] =>
      destruct (stopSession_run h w1 _ prior eq_refl Hentry)
        as (w' & stamp & -> & Hstore & _)
  end.
  { intros k Hk. cbn. replace (S (S (calls w + k))) with (calls w + (2 + k)) by lia.
    apply Hok. lia. }
  cbn [fst snd]. split; [reflexivity |]. rewrite Hstore.
  split; [reflexivity |].
  exists stamp. unfold storedDomains at 1. cbn.
  rewrite lookup_insert_eq. reflexivity.
Qed.

Lemma start_stop_round_trip_witness :
  (forall k, k < 7 -> fault Scenario.reliable (calls Scenario.fresh + k) = None)
  /\ fst (TimeTracker.stopSession Scenario.reliable
            (snd (TimeTracker.startSession "  example.com " (Num.ofZ 123)
                    (Num.ofZ 1) Scenario.reliable Scenario.fresh)))
     = Ok (Some (Session.mk (Num.ofZ 1000) (Some (Num.ofZ 5000))
                            (Num.max0 (Num.sub (Num.ofZ 5000) (Num.ofZ 1000)))
                            (Num.ofZ 123) (Num.ofZ 1))).
Proof.
  assert (Hok : forall k, k < 7 ->
                  fault Scenario.reliable (calls Scenario.fresh + k) = None)
    by (intros k _; reflexivity).
  split; [exact Hok |].
  assert (Hint : forall z, (0 <= z)%Z -> nonNegativeInteger (Num.ofZ z))
    by (intros z Hz; exists z; split; [exact Hz | reflexivity]).
  assert (Hd : Str.trim "  example.com " <> "") by discriminate.
  exact (proj1 (proj2 (proj2
           (start_stop_round_trip "  example.com " (Num.ofZ 123) (Num.ofZ 1)
              Scenario.reliable Scenario.fresh None Hd
              (Hint 123%Z ltac:(discriminate)) (Hint 1%Z ltac:(discriminate))
              eq_refl eq_refl Hok)))).
Defined.

(** X30: When the slot holds a session, the storage area rejects no call
    and [getDomainData] finds for the domain of the session a complete
    record or nothing ([prior]), [stopSession] returns the completed
    session and the record of the domain has: [totalTime] = its prior
    value (0 for a domain without a record) plus the duration returned;
    [sessions] = the prior list followed by exactly the session returned;
    the daily bucket of the completion date = its prior value (0 when
    absent or falsy) plus that same duration, the other buckets being as
    before.  The completion date is the date of [Date.now()] read during
    the stop.  The slot is cleared. *)
Theorem stopSession_folds_complete_record h w (s : ActiveSession.t)
    (prior : option DomainData.t) :
  (forall k, k < 5 -> fault h (calls w + k) = None) ->
  StorageSchema.activeSession' (store w) = Some (Some s) ->
  storedEntry (store w) (ActiveSession.domain s) = DomainData.whole <$> prior ->
  let endTime := performanceNow h (perfReads w) in
  let completed :=
    Session.mk (ActiveSession.startTime s) (Some endTime)
               (Num.max0 (Num.sub endTime (ActiveSession.startTime s)))
               (ActiveSession.tabId s) (ActiveSession.windowId s) in
  let date :=
    isoDate h (dateNow h (match prior with
                          | Some _ => dateReads w
                          | None => S (dateReads w)
                          end)) in
  exists w' record,
    TimeTracker.stopSession h w = (Ok (Some completed), w')
    /\ storedDomains (store w') !! ActiveSession.domain s
       = Some (DomainData.whole record)
    /\ DomainData.totalTime record
       = Num.add (from_option DomainData.totalTime Num.zero prior)
                 (Session.duration completed)
    /\ DomainData.sessions record
       = (from_option DomainData.sessions [] prior ++ [completed])%list
    /\ DomainData.dailyStats record !! date
       = Some (Num.add
                 (Num.orZero (prior ≫= fun p => DomainData.dailyStats p !! date))
                 (Session.duration completed))
    /\ (forall other, other <> date ->
          DomainData.dailyStats record !! other
          = prior ≫= fun p => DomainData.dailyStats p !! other)
    /\ StorageSchema.activeSession' (store w') = Some None.
Proof.
  intros Hok Hslot Hentry endTime completed date.
  destruct (stopSession_run h w s prior Hslot Hentry Hok)
    as (w' & stamp & Hrun & Hstore & _).
  exists w'. eexists. split; [exact Hrun |]. rewrite Hstore.
  unfold storedDomains at 1. cbn.
  split; [apply lookup_insert_eq |]. cbn.
  split; [reflexivity |]. split; [reflexivity |].
  split; [apply lookup_insert_eq |].
  split; [| reflexivity].
  intros other Hne.
  rewrite lookup_insert_ne by (intros E; apply Hne; symmetry; exact E).
  destruct prior as [before |]; [reflexivity | apply lookup_empty].
Qed.

(** the scenario of the test suite: a session started at 1000 and stopped
    at 5000 lasts 4000; five seconds already spent on the domain become
    nine, and the two seconds of the day become six *)
Lemma stopSession_folds_complete_record_witness :
  (forall k, k < 5 -> fault Scenario.reliable (calls Scenario.visited + k) = None)
  /\ exists w' record,
       TimeTracker.stopSession Scenario.reliable Scenario.visited
       = (Ok (Some (Session.mk (Num.ofZ 1000) (Some (Num.ofZ 5000))
                               (Num.ofZ 4000) (Num.ofZ 123) (Num.ofZ 1))), w')
       /\ storedDomains (store w') !! "example.com"
          = Some (DomainData.whole record)
       /\ DomainData.totalTime record = Num.ofZ 9000
       /\ DomainData.dailyStats record !! "2022-01-01" = Some (Num.ofZ 6000)
       /\ persistedSessions (store w') = [].
Proof.
  assert (Hok : forall k, k < 5 ->
                  fault Scenario.reliable (calls Scenario.visited + k) = None)
    by (intros k _; reflexivity).
  split; [exact Hok |].
  destruct (stopSession_folds_complete_record Scenario.reliable Scenario.visited
              Scenario.visit
              (Some (DomainData.mk (Num.ofZ 5000) []
                       {["2022-01-01" := Num.ofZ 2000]} (Num.ofZ 1640995100000)))
              Hok eq_refl eq_refl)
    as (w' & record & Hrun & Hrecord & Htotal & _ & Hday & _ & Hslot).
  cbv zeta in *. exists w', record.
  change (performanceNow Scenario.reliable (perfReads Scenario.visited))
    with (Num.ofZ 5000) in *.
  change (ActiveSession.startTime Scenario.visit) with (Num.ofZ 1000) in *.
  cbn [Session.duration] in *.
  rewrite sub_ofZ, max0_ofZ in *.
  change (Z.max 0 (5000 - 1000)) with 4000%Z in *.
  split; [exact Hrun |]. split; [exact Hrecord |].
  split. { rewrite Htotal. apply (add_ofZ 5000 4000). }
  split.
  { transitivity (Some (Num.add (Num.ofZ 2000) (Num.ofZ 4000)));
      [exact Hday | f_equal; apply (add_ofZ 2000 4000)]. }
  unfold persistedSessions. rewrite Hslot. reflexivity.
Defined.

(** the fold never touches the slot, whether it succeeds or throws *)
Lemma fold_keeps_slot h w d session :
  StorageSchema.activeSession'
    (store (snd (TimeTracker.updateDomainData d session h w)))
  = StorageSchema.activeSession' (store w).
Proof.
  unfold TimeTracker.updateDomainData, tryCatch, bind.
  destruct (getDomainData_total h w d) as (record & w1 & -> & Hs1 & _).
  cbn.
  destruct (DomainData.dailyStats' record) as [dailyStats |]; cbn;
    [| rewrite Hs1; reflexivity].
  destruct (DomainData.sessions' record) as [sessions |]; cbn;
    [| rewrite Hs1; reflexivity].
  match goal with
  | |- context [StorageManager.updateDomainData d ?u h ?w2] =>
      destruct (updateDomainData_cases h w2 d u)
        as [(cause & Hrun & Hs & _) | (Hrun & Hs & _)];
      destruct (StorageManager.updateDomainData d u h w2) as [r w3]
  end; cbn in *; subst r; cbn; rewrite Hs; cbn; rewrite Hs1; reflexivity.
Qed.

(** X10: A [stopSession] that throws never loses the active session: whatever
    the host does, the slot holds after the failure what it held before. *)
Theorem stopSession_thrown_keeps_slot h w e :
  fst (TimeTracker.stopSession h w) = Throw e ->
  StorageSchema.activeSession' (store (snd (TimeTracker.stopSession h w)))
  = StorageSchema.activeSession' (store w).
Proof.
  unfold TimeTracker.stopSession, tryCatch, bind.
  destruct (getActiveSession_total h w) as [found ->].
  destruct found as [s |]; [| discriminate].
  unfold Browser.performance_now, TimeTracker.calculateDuration, bind, ret.
  match goal with
  | |- context [TimeTracker.updateDomainData ?d ?c h ?w1] =>
      pose proof (fold_keeps_slot h w1 d c) as Hkept;
      destruct (TimeTracker.updateDomainData d c h w1) as [[[] | e1] w2] eqn:Efold
  end; cbn in Hkept.
  - destruct (fault h (calls w2)) as [e2 |] eqn:Ef.
    + rewrite (setActiveSession_failed h w2 None e2 Ef). cbn. intros _. exact Hkept.
    + rewrite (setActiveSession_ok h w2 None Ef). cbn. discriminate.
  - cbn. intros _. exact Hkept.
Qed.

Lemma stopSession_thrown_keeps_slot_witness :
  fst (TimeTracker.stopSession (Scenario.failingAt 2) Scenario.visited)
  = Throw (JsError ("Failed to stop session: Error: "
                    +:+ "Failed to update domain data for example.com: Error: "
                    +:+ "Failed to get storage data: Error: Storage error"))
  /\ StorageSchema.activeSession'
       (store (snd (TimeTracker.stopSession (Scenario.failingAt 2) Scenario.visited)))
     = Some (Some Scenario.visit).
Proof.
  split; [reflexivity |].
  exact (stopSession_thrown_keeps_slot (Scenario.failingAt 2) Scenario.visited
           _ eq_refl).
Defined.

Lemma flag_call_thrown h w (p : bool) (wrap : string) e w' :
  tryCatch
    (activeSession <- StorageManager.getActiveSession ;;
     match activeSession with
     | None => ret None
     | Some activeSession =>
         let changed := ActiveSession.withPaused activeSession p in
         (StorageManager.setActiveSession (Some changed) ;;;
          ret (Some changed))
     end)
    (fun error => throw (JsError (wrap +:+ render error))) h w
  = (Throw e, w') ->
  store w' = store w.
Proof.
  unfold tryCatch, bind.
  destruct (getActiveSession_total h w) as [found ->].
  destruct found as [s |]; [| discriminate].
  destruct (fault h (calls (Browser.called w))) as [e' |] eqn:Ef.
  - rewrite (setActiveSession_failed h _ _ e' Ef). cbn.
    intros H. inversion H. reflexivity.
  - rewrite (setActiveSession_ok h _ _ Ef). cbn. discriminate.
Qed.

(** X11: [startSession], [pauseSession] and [resumeSession] are all or
    nothing: when one of them throws, for whatever reason, the stored
    object is exactly what it was before the call.  ([stopSession] is not:
    it writes twice.) *)
Theorem failed_call_writes_nothing (c : Call) h w e :
  c <> Stop ->
  thrownBy (fst (perform c h w)) = Some e ->
  store (snd (perform c h w)) = store w.
Proof.
  intros Hc. destruct c as [domain tabId windowId | | |]; [| contradiction | |];
    unfold perform.
  - destruct (startSession_cases domain tabId windowId h w)
      as [(e' & w' & -> & Hs) | (s & w' & -> & _)]; cbn;
      [intros _; exact Hs | discriminate].
  - destruct (TimeTracker.pauseSession h w) as [[r | e'] w'] eqn:E; cbn;
      [discriminate | intros _].
    exact (flag_call_thrown h w true "Failed to pause session: " e' w' E).
  - destruct (TimeTracker.resumeSession h w) as [[r | e'] w'] eqn:E; cbn;
      [discriminate | intros _].
    exact (flag_call_thrown h w false "Failed to resume session: " e' w' E).
Qed.

Lemma failed_call_writes_nothing_witness :
  thrownBy (fst (perform Pause (Scenario.failingAt 1) Scenario.tracking))
  = Some (JsError ("Failed to pause session: Error: "
                   +:+ "Failed to set active session: Error: "
                   +:+ "Failed to set storage data: Error: Storage error"))
  /\ store (snd (perform Pause (Scenario.failingAt 1) Scenario.tracking))
     = store Scenario.tracking.
Proof.
  split; [reflexivity |].
  refine (failed_call_writes_nothing Pause (Scenario.failingAt 1)
            Scenario.tracking _ _ eq_refl).
  discriminate.
Defined.

(** ** Settings *)

Lemma getSettings_ok h w :
  fault h (calls w) = None ->
  StorageManager.getSettings h w
  = (Ok (default StorageManager.getDefaultSettings
                 (StorageSchema.settings' (store w))),
     Browser.called w).
Proof.
  intros Hf. unfold StorageManager.getSettings, tryCatch, bind.
  rewrite (get_ok h w _ Hf). reflexivity.
Qed.

Lemma getSettings_failed h w e :
  fault h (calls w) = Some e ->
  StorageManager.getSettings h w
  = (Ok StorageManager.getDefaultSettings, Browser.called w).
Proof.
  intros Hf. unfold StorageManager.getSettings, tryCatch, bind.
  rewrite (get_failed h w _ e Hf). reflexivity.
Qed.

(** X12: [updateSettings] then [getSettings] is a round trip: with no call
    rejected, the settings read back are the stored settings (the defaults
    when none were stored) with every given option replaced and every
    other option kept; no other root key changes. *)
Theorem updateSettings_round_trip h w (u : ExtensionSettings.partial) :
  (forall k, k < 3 -> fault h (calls w + k) = None) ->
  let current := default StorageManager.getDefaultSettings
                         (StorageSchema.settings' (store w)) in
  let updated := StorageManager.updateSettings u h w in
  let readBack := StorageManager.getSettings h (snd updated) in
  fst updated = Ok tt
  /\ fst readBack = Ok (ExtensionSettings.merge current u)
  /\ store (snd readBack)
     = StorageSchema.mkPartial
         (StorageSchema.domains' (store w))
         (StorageSchema.activeSession' (store w))
         (Some (ExtensionSettings.merge current u))
         (StorageSchema.version' (store w))
         (StorageSchema.installDate' (store w)).
Proof.
  intros Hok. cbv zeta.
  assert (H0 : fault h (calls w) = None)
    by (rewrite <- (Nat.add_0_r (calls w)); apply Hok; lia).
  assert (H1 : fault h (S (calls w)) = None)
    by (rewrite <- Nat.add_1_r; apply Hok; lia).
  assert (H2 : fault h (S (S (calls w))) = None)
    by (replace (S (S (calls w))) with (calls w + 2) by lia; apply Hok; lia).
  unfold StorageManager.updateSettings, tryCatch, bind.
  rewrite (getSettings_ok h w H0).
  rewrite (set_ok h (Browser.called w) _ H1). cbn [fst snd].
  split; [reflexivity |].
  rewrite getSettings_ok by exact H2. cbn [fst snd].
  split; reflexivity.
Qed.

Lemma updateSettings_round_trip_witness :
  (forall k, k < 3 -> fault Scenario.reliable (calls Scenario.fresh + k) = None)
  /\ fst (StorageManager.getSettings Scenario.reliable
            (snd (StorageManager.updateSettings
                    (ExtensionSettings.mkPartial None (Some false) None
                       (Some ["example.com"]))
                    Scenario.reliable Scenario.fresh)))
     = Ok (ExtensionSettings.mk TopRight false (Num.ofZ 30) ["example.com"]).
Proof.
  assert (Hok : forall k, k < 3 ->
                  fault Scenario.reliable (calls Scenario.fresh + k) = None)
    by (intros k _; reflexivity).
  split; [exact Hok |].
  exact (proj1 (proj2 (updateSettings_round_trip Scenario.reliable Scenario.fresh
                         (ExtensionSettings.mkPartial None (Some false) None
                            (Some ["example.com"])) Hok))).
Defined.

(** X13: When the read of the current settings is rejected, [updateSettings]
    does not fail: [getSettings] has answered with the defaults, so what
    is written is the defaults with the given options, and the options
    that were stored but not given are lost. *)
Theorem updateSettings_unreadable_resets h w (u : ExtensionSettings.partial) e :
  fault h (calls w) = Some e ->
  fault h (S (calls w)) = None ->
  exists w',
    StorageManager.updateSettings u h w = (Ok tt, w')
    /\ StorageSchema.settings' (store w')
       = Some (ExtensionSettings.merge StorageManager.getDefaultSettings u).
Proof.
  intros H0 H1. unfold StorageManager.updateSettings, tryCatch, bind.
  rewrite (getSettings_failed h w e H0).
  rewrite (set_ok h (Browser.called w) _ H1).
  eexists. split; reflexivity.
Qed.

Lemma updateSettings_unreadable_resets_witness :
  exists w',
    StorageManager.updateSettings
      (ExtensionSettings.mkPartial None (Some true) None None)
      (Scenario.failingAt 0) Scenario.customised = (Ok tt, w')
    /\ StorageSchema.settings' (store w')
       = Some (ExtensionSettings.mk TopRight true (Num.ofZ 30) []).
Proof.
  exact (updateSettings_unreadable_resets (Scenario.failingAt 0)
           Scenario.customised
           (ExtensionSettings.mkPartial None (Some true) None None)
           (JsError "Storage error") eq_refl eq_refl).
Defined.

(** ** The typed pass-through *)

(** X14: Each of [get], [set], [remove] and [clear] turns a rejection by the
    storage area into an error that names the operation and carries the
    cause, and leaves the stored object as it was. *)
Theorem passthrough_wraps_rejection h w e keys items :
  fault h (calls w) = Some e ->
  StorageManager.get keys h w
  = (Throw (JsError ("Failed to get storage data: " +:+ render e)), Browser.called w)
  /\ StorageManager.set items h w
     = (Throw (JsError ("Failed to set storage data: " +:+ render e)), Browser.called w)
  /\ StorageManager.remove keys h w
     = (Throw (JsError ("Failed to remove storage data: " +:+ render e)),
        Browser.called w)
  /\ StorageManager.clear h w
     = (Throw (JsError ("Failed to clear storage data: " +:+ render e)),
        Browser.called w)
  /\ store (Browser.called w) = store w.
Proof.
  intros Hf.
  unfold StorageManager.get, StorageManager.set, StorageManager.remove,
    StorageManager.clear, tryCatch, Browser.storage_get, Browser.storage_set,
    Browser.storage_remove, Browser.storage_clear.
  rewrite Hf. repeat split; reflexivity.
Qed.

Lemma passthrough_wraps_rejection_witness :
  fst (StorageManager.clear (Scenario.failingAt 0) Scenario.visited)
  = Throw (JsError "Failed to clear storage data: Error: Storage error")
  /\ store (snd (StorageManager.clear (Scenario.failingAt 0) Scenario.visited))
     = store Scenario.visited.
Proof.
  destruct (passthrough_wraps_rejection (Scenario.failingAt 0) Scenario.visited
              (JsError "Storage error") [] StorageSchema.empty eq_refl)
    as (_ & _ & _ & Hclear & Hstore).
  rewrite Hclear. split; [reflexivity | exact Hstore].
Defined.

(** X17: After [clear], [getAll] sees a fresh installation whatever was stored:
    no domains, no active session, the default settings, version 1 and an
    install date of now. *)
Theorem clear_getAll h w :
  fault h (calls w) = None ->
  fault h (S (calls w)) = None ->
  let cleared := StorageManager.clear h w in
  fst cleared = Ok tt
  /\ fst (StorageManager.getAll h (snd cleared))
     = Ok (StorageSchema.mk ∅ None StorageManager.getDefaultSettings Num.one
                            (Num.ofZ (dateNow h (dateReads w)))).
Proof.
  intros H0 H1. cbv zeta.
  unfold StorageManager.clear, tryCatch, Browser.storage_clear. rewrite H0.
  cbn [fst snd]. split; [reflexivity |].
  unfold StorageManager.getAll, tryCatch, bind.
  rewrite get_ok by exact H1. reflexivity.
Qed.

Lemma clear_getAll_witness :
  fst (StorageManager.getAll Scenario.reliable
         (snd (StorageManager.clear Scenario.reliable Scenario.visited)))
  = Ok (StorageSchema.mk ∅ None StorageManager.getDefaultSettings Num.one
                         (Num.ofZ 1640995200000)).
Proof.
  exact (proj2 (clear_getAll Scenario.reliable Scenario.visited eq_refl eq_refl)).
Defined.

(** ** Reading the record of a domain *)

(** X18: [getDomainData] is best effort: it never throws and never writes.
    When the read succeeds and a domains map is stored, it returns what
    the map has under the domain: the record of its own, or, for a name
    the map does not own but [Object.prototype] has ([constructor],
    [toString], ...), the inherited member, which has none of the fields
    of a record.  Otherwise (nothing under the name, no domains map, or
    the read rejected) it returns a new empty record stamped with now,
    which is not stored. *)
Theorem getDomainData_best_effort h w (d : string) :
  exists record w',
    StorageManager.getDomainData d h w = (Ok record, w')
    /\ store w' = store w
    /\ sets w' = sets w
    /\ record
       = match fault h (calls w), StorageSchema.domains' (store w) with
         | None, Some ds =>
             match ds !! d with
             | Some stored => stored
             | None =>
                 if inherited d then DomainData.alien
                 else DomainData.whole (emptyAt (dateNow h (dateReads w)))
             end
         | _, _ => DomainData.whole (emptyAt (dateNow h (dateReads w)))
         end.
Proof.
  destruct (fault h (calls w)) as [e |] eqn:Ef.
  - unfold StorageManager.getDomainData, tryCatch, bind.
    rewrite (get_failed h w _ e Ef). cbn.
    eexists. eexists. repeat split; reflexivity.
  - rewrite (getDomainData_ok h w d Ef). unfold storedEntry, DomainData.read.
    destruct (StorageSchema.domains' (store w)) as [ds |];
      cbn [mbind option_bind].
    + destruct (ds !! d) as [stored |]; [| destruct (inherited d)];
        eexists; eexists; repeat split; reflexivity.
    + eexists. eexists. repeat split; reflexivity.
Qed.

(** X19: [updateDomainData] then [getDomainData] is a round trip: with no call
    rejected, the record read back has every given field, every other
    field as the domain had it before, and as [lastAccessed] the reading
    of [Date.now()] that the update made last.  What the domain had
    before is its stored record; for a domain without one, a new empty
    record (whose making reads the clock once more), or, when its name is
    one that [Object.prototype] has, no field at all. *)
Theorem updateDomainData_round_trip h w (d : string) (u : DomainData.partial) :
  (forall k, k < 3 -> fault h (calls w + k) = None) ->
  let updated := StorageManager.updateDomainData d u h w in
  let found := storedDomains (store w) !! d in
  let current :=
    match found with
    | Some stored => stored
    | None =>
        if inherited d then DomainData.alien
        else DomainData.whole (emptyAt (dateNow h (dateReads w)))
    end in
  let stamp :=
    Num.ofZ (dateNow h (match found with
                        | Some _ => dateReads w
                        | None => if inherited d then dateReads w
                                  else S (dateReads w)
                        end)) in
  fst updated = Ok tt
  /\ fst (StorageManager.getDomainData d h (snd updated))
     = Ok (DomainData.mkPartial
             (DomainData.over (DomainData.totalTime' u)
                              (DomainData.totalTime' current))
             (DomainData.over (DomainData.sessions' u)
                              (DomainData.sessions' current))
             (DomainData.over (DomainData.dailyStats' u)
                              (DomainData.dailyStats' current))
             (Some stamp))
  /\ store (snd (StorageManager.getDomainData d h (snd updated)))
     = store (snd updated).
Proof.
  intros Hok. cbv zeta.
  assert (H0 : fault h (calls w) = None)
    by (rewrite <- (Nat.add_0_r (calls w)); apply Hok; lia).
  assert (H1 : fault h (S (calls w)) = None)
    by (rewrite <- Nat.add_1_r; apply Hok; lia).
  destruct (updateDomainData_ok h w d u H0 H1) as (w' & Hrun & Hstore & Hcalls & _).
  rewrite Hrun. cbn [fst snd].
  assert (H2 : fault h (calls w') = None)
    by (rewrite Hcalls; replace (S (S (calls w))) with (calls w + 2) by lia;
        apply Hok; lia).
  rewrite (getDomainData_ok h w' d H2).
  assert (Hentry : storedEntry (store w') d
                   = Some (DomainData.merge
                             (default (DomainData.whole
                                         (emptyAt (dateNow h (dateReads w))))
                                      (DomainData.read (storedDomains (store w)) d))
                             u
                             (Num.ofZ (dateNow h
                                (match DomainData.read (storedDomains (store w)) d with
                                 | Some _ => dateReads w
                                 | None => S (dateReads w)
                                 end))))).
  { rewrite Hstore. unfold storedEntry. cbn [StorageSchema.assign
      StorageSchema.domains' StorageSchema.over mbind option_bind].
    unfold DomainData.read at 1. rewrite lookup_insert_eq. reflexivity. }
  rewrite Hentry. cbn [fst snd Browser.called store].
  split; [reflexivity |]. split; [| reflexivity].
  unfold DomainData.read.
  destruct (storedDomains (store w) !! d) as [stored |]; [reflexivity |].
  destruct (inherited d); reflexivity.
Qed.

(** the domain [other.org] of [Scenario.visited], one second so far, is
    given a total of 1.5 seconds: the list of visits and the daily
    buckets read back as they were, the stamp is the clock's *)
Lemma updateDomainData_round_trip_witness :
  (forall k, k < 3 -> fault Scenario.reliable (calls Scenario.visited + k) = None)
  /\ fst (StorageManager.getDomainData "other.org" Scenario.reliable
            (snd (StorageManager.updateDomainData "other.org"
                    (DomainData.mkPartial (Some (Num.ofZ 1500)) None None None)
                    Scenario.reliable Scenario.visited)))
     = Ok (DomainData.mkPartial (Some (Num.ofZ 1500)) (Some []) (Some ∅)
                                (Some (Num.ofZ 1640995200000))).
Proof.
  assert (Hok : forall k, k < 3 ->
                  fault Scenario.reliable (calls Scenario.visited + k) = None)
    by (intros k _; reflexivity).
  split; [exact Hok |].
  exact (proj1 (proj2
           (updateDomainData_round_trip Scenario.reliable Scenario.visited
              "other.org"
              (DomainData.mkPartial (Some (Num.ofZ 1500)) None None None) Hok))).
Defined.

(** ** More on the extraction of the domain *)

Lemma prefix_split p : forall s, String.prefix p s = true -> exists r, s = p +:+ r.
Proof.
  induction p as [| a p IH]; intros s H.
  - exists s. reflexivity.
  - destruct s as [| b s]; [discriminate H |]. cbn in H.
    destruct (ascii_dec a b) as [-> |]; [| discriminate H].
    destruct (IH s H) as [r ->]. exists r. reflexivity.
Qed.

Lemma rev_app_nonempty s1 : forall s2, s2 <> "" -> String.rev_app s1 s2 <> "".
Proof.
  induction s1 as [| c s1 IH]; intros s2 H; cbn; [exact H |].
  apply IH. discriminate.
Qed.

Lemma rev_nonempty c s : String.rev (String c s) <> "".
Proof. unfold String.rev. cbn. apply rev_app_nonempty. discriminate. Qed.

(** the first piece of a split that has already read something is not
    empty *)
Lemma splitGo_first_nonempty sep s :
  forall skip c cur, hd "" (Str.splitGo sep skip (String c cur) s) <> "".
Proof.
  induction s as [| a r IH]; intros skip c cur.
  - cbn. apply rev_nonempty.
  - cbn [Str.splitGo]. destruct skip; [| apply IH].
    destruct (String.prefix sep (String a r)); [cbn; apply rev_nonempty | apply IH].
Qed.

Lemma splitGo_miss sep c r cur :
  String.prefix sep (String c r) = false ->
  Str.splitGo sep 0 cur (String c r) = Str.splitGo sep 0 (String c cur) r.
Proof. intros H. cbn [Str.splitGo]. rewrite H. reflexivity. Qed.

Lemma splitGo_no_colon s :
  hasColon s = false ->
  forall cur, length (Str.splitGo "://" 0 cur s) = 1.
Proof.
  induction s as [| c r IH]; intros H cur; [reflexivity |].
  cbn in H. apply orb_false_elim in H as [Hc Hr].
  cbn [Str.splitGo String.prefix].
  destruct (ascii_dec ":" c) as [<- | _]; [discriminate Hc |].
  apply IH. exact Hr.
Qed.

(** X20: For every URL that starts with [chrome://] or [moz-extension://],
    whatever follows, [extractDomain] returns the scheme, without asking
    the URL parser. *)
Theorem extractDomain_special_scheme h rest :
  TimeTracker.extractDomain h ("chrome://" +:+ rest) = "chrome"
  /\ TimeTracker.extractDomain h ("moz-extension://" +:+ rest) = "moz-extension".
Proof.
  split; [apply extractDomain_chrome | apply extractDomain_moz_extension].
Qed.

(** X21: For a URL that starts with [about:], [extractDomain] returns [about]
    only when [//] follows the colon; when the rest neither starts with
    [//] nor has another colon (as in [about:blank], [about:newtab],
    [about:config]) it returns [unknown]. *)
Theorem extractDomain_about h rest :
  TimeTracker.extractDomain h ("about://" +:+ rest) = "about"
  /\ (Str.startsWith rest "//" = false -> hasColon rest = false ->
      TimeTracker.extractDomain h ("about:" +:+ rest) = "unknown").
Proof.
  split.
  - unfold TimeTracker.extractDomain.
    replace (Str.startsWith ("about://" +:+ rest) "about:") with true
      by (destruct rest; reflexivity).
    rewrite !orb_true_r. cbn [Str.isEmpty String.app].
    replace (Str.split "://" ("about://" +:+ rest))
      with ("about" :: Str.split "://" rest) by (destruct rest; reflexivity).
    pose proof (splitGo_nonempty "://" rest 0 "") as Hne.
    unfold Str.split. destruct (Str.splitGo "://" 0 "" rest); [contradiction |].
    reflexivity.
  - intros Hslash Hcolon. unfold TimeTracker.extractDomain.
    replace (Str.startsWith ("about:" +:+ rest) "about:") with true
      by (destruct rest; reflexivity).
    rewrite !orb_true_r. cbn [Str.isEmpty String.app].
    assert (Hone : length (Str.split "://" ("about:" +:+ rest)) = 1).
    { unfold Str.split.
      change ("about:" +:+ rest)
        with (String "a" (String "b" (String "o" (String "u" (String "t"
                (String ":" rest)))))).
      do 5 (rewrite splitGo_miss by reflexivity).
      rewrite splitGo_miss by exact Hslash.
      apply splitGo_no_colon. exact Hcolon. }
    rewrite Hone. reflexivity.
Qed.

Lemma extractDomain_about_witness :
  TimeTracker.extractDomain Scenario.reliable "about:newtab" = "unknown".
Proof.
  exact (proj2 (extractDomain_about Scenario.reliable "newtab") eq_refl eq_refl).
Defined.

(** X22: [extractDomain] never returns the empty string, whatever the URL and
    whatever the URL parser answers. *)
Theorem extractDomain_never_empty h url :
  TimeTracker.extractDomain h url <> "".
Proof.
  unfold TimeTracker.extractDomain.
  destruct (Str.isEmpty url) eqn:Eempty; [discriminate |].
  destruct (Str.startsWith url "chrome://" || Str.startsWith url "moz-extension://"
            || Str.startsWith url "about:") eqn:Especial.
  - cbv zeta. destruct (Nat.ltb 1 (length (Str.split "://" url))); [| discriminate].
    destruct url as [| c r]; [discriminate Eempty |].
    unfold Str.split. cbn [Str.splitGo].
    destruct (String.prefix "://" (String c r)) eqn:Ep.
    + exfalso. apply prefix_split in Ep as [r' Hr'].
      change ("://" +:+ r') with (String ":" (String "/" (String "/" r'))) in Hr'.
      injection Hr' as -> _.
      assert (Hno : Str.startsWith (String ":" r) "chrome://"
                    || Str.startsWith (String ":" r) "moz-extension://"
                    || Str.startsWith (String ":" r) "about:" = false)
        by reflexivity.
      congruence.
    + pose proof (splitGo_first_nonempty "://" r 0 c "") as H.
      destruct (Str.splitGo "://" 0 (String c "") r); [discriminate | exact H].
  - destruct (hostname h url) as [name |]; [| discriminate].
    destruct (Str.isEmpty name) eqn:En; [discriminate |].
    intros ->. discriminate En.
Qed.

(** ** The event handlers *)

Lemma isDomainExcluded_ok h w domain :
  fault h (calls w) = None ->
  BackgroundService.isDomainExcluded domain h w
  = (Ok (existsb (String.eqb domain)
           (ExtensionSettings.excludedDomains
              (default StorageManager.getDefaultSettings
                       (StorageSchema.settings' (store w))))),
     Browser.called w).
Proof.
  intros Hf. unfold BackgroundService.isDomainExcluded, tryCatch, bind.
  rewrite (getSettings_ok h w Hf). reflexivity.
Qed.

(** an excluded domain: the settings are read and nothing else happens *)
Lemma track_excluded h w url tabId windowId :
  fault h (calls w) = None ->
  excludedBy (store w) (TimeTracker.extractDomain h url) = true ->
  BackgroundService.track url tabId windowId h w = (Ok tt, Browser.called w).
Proof.
  intros Hf He. unfold BackgroundService.track, bind,
    BackgroundService.extractDomain.
  rewrite (isDomainExcluded_ok h w _ Hf).
  fold (excludedBy (store w) (TimeTracker.extractDomain h url)).
  rewrite He. reflexivity.
Qed.


Lemma isValidUrl_spec t url :
  BackgroundService.isValidUrl t url = true
  <-> url <> ""
      /\ (protocol t url = Some "http:" \/ protocol t url = Some "https:").
Proof.
  unfold BackgroundService.isValidUrl. destruct url as [| c r]; cbn [Str.isEmpty].
  { split; [discriminate | intros [H _]; contradiction]. }
  destruct (protocol t (String c r)) as [p |].
  - rewrite orb_true_iff, !String.eqb_eq. split.
    + intros [-> | ->]; (split; [discriminate | auto]).
    + intros [_ [H | H]]; injection H as ->; auto.
  - split; [discriminate | intros [_ [H | H]]; discriminate H].
Qed.

(** X23: Only [http:] and [https:] pages are tracked: for a URL with any other
    protocol (or one the URL parser refuses), the three tracking handlers
    resolve without calling the storage area or the clocks; the world is
    left untouched. *)
Theorem handlers_ignore_other_pages t h w url tabId windowId frameId tab :
  protocol t url <> Some "http:" ->
  protocol t url <> Some "https:" ->
  (tabsGet t tabId = Ok tab -> Tab.url tab = Some url ->
   BackgroundService.handleTabActivated t tabId windowId h w = (Ok tt, w))
  /\ BackgroundService.handleTabUpdated t tabId (Some url) tab h w = (Ok tt, w)
  /\ BackgroundService.handleNavigationCompleted t tabId frameId url h w
     = (Ok tt, w).
Proof.
  intros Hhttp Hhttps.
  assert (Hbad : BackgroundService.isValidUrl t url = false).
  { destruct (BackgroundService.isValidUrl t url) eqn:E; [| reflexivity].
    apply isValidUrl_spec in E as [_ [E | E]]; contradiction. }
  split; [| split].
  - intros Hget Hurl.
    unfold BackgroundService.handleTabActivated, tryCatch, bind,
      BackgroundService.settled.
    rewrite Hget, Hurl, Hbad. reflexivity.
  - unfold BackgroundService.handleTabUpdated, tryCatch. rewrite Hbad.
    destruct (Str.isEmpty url || negb (Tab.active tab)); reflexivity.
  - unfold BackgroundService.handleNavigationCompleted, tryCatch. rewrite Hbad.
    destruct (negb (Num.strictEq frameId Num.zero)); reflexivity.
Qed.

Lemma handlers_ignore_other_pages_witness :
  protocol Scenario.browser "chrome://extensions" <> Some "http:"
  /\ BackgroundService.handleTabActivated Scenario.browser (Num.ofZ 7) (Num.ofZ 1)
       Scenario.online Scenario.visited
     = (Ok tt, Scenario.visited).
Proof.
  assert (H1 : protocol Scenario.browser "chrome://extensions" <> Some "http:")
    by discriminate.
  assert (H2 : protocol Scenario.browser "chrome://extensions" <> Some "https:")
    by discriminate.
  split; [exact H1 |].
  exact (proj1 (handlers_ignore_other_pages Scenario.browser Scenario.online
                  Scenario.visited "chrome://extensions" (Num.ofZ 7) (Num.ofZ 1)
                  Num.zero
                  (Tab.mk (Some "chrome://extensions") true (Num.ofZ 1)) H1 H2)
           eq_refl eq_refl).
Defined.

(** X24: Only the top frame of the active tab counts: a URL change in a tab
    that is not active, an update without a URL, a navigation completed in
    a frame other than frame [0] or in a tab that is not active, and an
    activation whose tab cannot be fetched all resolve with the world
    untouched. *)
Theorem handlers_ignore_background_events t h w url tabId windowId frameId tab e :
  (Tab.active tab = false ->
   BackgroundService.handleTabUpdated t tabId (Some url) tab h w = (Ok tt, w))
  /\ BackgroundService.handleTabUpdated t tabId None tab h w = (Ok tt, w)
  /\ (Num.strictEq frameId Num.zero = false ->
      BackgroundService.handleNavigationCompleted t tabId frameId url h w
      = (Ok tt, w))
  /\ (tabsGet t tabId = Ok tab -> Tab.active tab = false ->
      BackgroundService.handleNavigationCompleted t tabId frameId url h w
      = (Ok tt, w))
  /\ (tabsGet t tabId = Throw e ->
      BackgroundService.handleTabActivated t tabId windowId h w = (Ok tt, w)
      /\ BackgroundService.handleNavigationCompleted t tabId frameId url h w
         = (Ok tt, w)).
Proof.
  repeat split.
  - intros Hinactive. unfold BackgroundService.handleTabUpdated, tryCatch.
    rewrite Hinactive, orb_true_r. reflexivity.
  - intros Hframe. unfold BackgroundService.handleNavigationCompleted, tryCatch.
    rewrite Hframe. reflexivity.
  - intros Hget Hinactive.
    unfold BackgroundService.handleNavigationCompleted, tryCatch, bind,
      BackgroundService.settled.
    rewrite Hget, Hinactive.
    destruct (negb (Num.strictEq frameId Num.zero)); [reflexivity |].
    destruct (negb (BackgroundService.isValidUrl t url)); reflexivity.
  - unfold BackgroundService.handleTabActivated, tryCatch, bind,
      BackgroundService.settled.
    rewrite H. reflexivity.
  - unfold BackgroundService.handleNavigationCompleted, tryCatch, bind,
      BackgroundService.settled.
    rewrite H.
    destruct (negb (Num.strictEq frameId Num.zero)); [reflexivity |].
    destruct (negb (BackgroundService.isValidUrl t url)); reflexivity.
Qed.

Lemma handlers_ignore_background_events_witness :
  Num.strictEq (Num.ofZ 3) Num.zero = false
  /\ BackgroundService.handleNavigationCompleted Scenario.browser (Num.ofZ 123)
       (Num.ofZ 3) "https://news.example/a" Scenario.online Scenario.visited
     = (Ok tt, Scenario.visited).
Proof.
  split; [reflexivity |].
  exact (proj1 (proj2 (proj2
           (handlers_ignore_background_events Scenario.browser Scenario.online
              Scenario.visited "https://news.example/a" (Num.ofZ 123) (Num.ofZ 1)
              (Num.ofZ 3) (Tab.mk None false (Num.ofZ 1)) (JsError "none"))))
           eq_refl).
Defined.

Section Switching.
Variable t : Tabs.
Variable h : Host.
Variable w : World.
Variable url : string.
Variable tabId : number.
Variable tab : Tab.t.
Hypothesis Hget : tabsGet t tabId = Ok tab.
Hypothesis Hurl : Tab.url tab = Some url.
Hypothesis Hactive : Tab.active tab = true.
Hypothesis Hvalid : BackgroundService.isValidUrl t url = true.

Lemma handlers_reach_track :
  BackgroundService.handleTabActivated t tabId (Tab.windowId tab) h w
  = tryCatch (BackgroundService.track url tabId (Tab.windowId tab))
             (fun _ => ret tt) h w
  /\ BackgroundService.handleTabUpdated t tabId (Some url) tab h w
     = tryCatch (BackgroundService.track url tabId (Tab.windowId tab))
                (fun _ => ret tt) h w
  /\ BackgroundService.handleNavigationCompleted t tabId Num.zero url h w
     = tryCatch (BackgroundService.track url tabId (Tab.windowId tab))
                (fun _ => ret tt) h w.
Proof.
  assert (Hne : Str.isEmpty url = false).
  { apply isValidUrl_spec in Hvalid as [Hne _]. destruct url; [contradiction | reflexivity]. }
  repeat split.
  - unfold BackgroundService.handleTabActivated, tryCatch, bind,
      BackgroundService.settled.
    rewrite Hget, Hurl, Hvalid. reflexivity.
  - unfold BackgroundService.handleTabUpdated, tryCatch.
    rewrite Hne, Hactive, Hvalid. reflexivity.
  - unfold BackgroundService.handleNavigationCompleted, tryCatch, bind,
      BackgroundService.settled.
    rewrite Hvalid, Hget, Hactive. reflexivity.
Qed.

End Switching.



(** X26: A tab event for a domain that the settings exclude reads the settings
    and does nothing else: each tracking handler resolves, nothing is
    written, and the session that was running keeps running. *)
Theorem handlers_skip_excluded_domain t h w url tabId tab :
  tabsGet t tabId = Ok tab ->
  Tab.url tab = Some url ->
  Tab.active tab = true ->
  BackgroundService.isValidUrl t url = true ->
  fault h (calls w) = None ->
  excludedBy (store w) (TimeTracker.extractDomain h url) = true ->
  BackgroundService.handleTabActivated t tabId (Tab.windowId tab) h w
  = (Ok tt, Browser.called w)
  /\ BackgroundService.handleTabUpdated t tabId (Some url) tab h w
     = (Ok tt, Browser.called w)
  /\ BackgroundService.handleNavigationCompleted t tabId Num.zero url h w
     = (Ok tt, Browser.called w)
  /\ store (Browser.called w) = store w.
Proof.
  intros Hget Hurl Hactive Hvalid Hf He.
  destruct (handlers_reach_track t h w url tabId tab Hget Hurl Hactive Hvalid)
    as (-> & -> & ->).
  unfold tryCatch.
  rewrite (track_excluded h w url tabId (Tab.windowId tab) Hf He).
  repeat split; reflexivity.
Qed.

Lemma handlers_skip_excluded_domain_witness :
  excludedBy (store Scenario.excluding)
    (TimeTracker.extractDomain Scenario.online "https://news.example/a") = true
  /\ BackgroundService.handleTabActivated Scenario.browser (Num.ofZ 123)
       (Num.ofZ 1) Scenario.online Scenario.excluding
     = (Ok tt, Browser.called Scenario.excluding).
Proof.
  split; [reflexivity |].
  exact (proj1 (handlers_skip_excluded_domain Scenario.browser Scenario.online
                  Scenario.excluding "https://news.example/a" (Num.ofZ 123)
                  (Tab.mk (Some "https://news.example/a") true (Num.ofZ 1))
                  eq_refl eq_refl eq_refl eq_refl eq_refl eq_refl)).
Defined.

(** X27: When the window loses focus (the event carries [WINDOW_ID_NONE]) while
    a session is running, [handleWindowFocusChanged] pauses it: the slot
    holds the same session with [isPaused = true] and nothing else is
    written. *)
Theorem focus_lost_pauses t h w windowId (s : ActiveSession.t) :
  StorageSchema.activeSession' (store w) = Some (Some s) ->
  Num.strictEq windowId (WINDOW_ID_NONE t) = true ->
  (forall k, k < 3 -> fault h (calls w + k) = None) ->
  exists w',
    BackgroundService.handleWindowFocusChanged t windowId h w = (Ok tt, w')
    /\ store w'
       = StorageSchema.assign
           (StorageSchema.mkPartial None
              (Some (Some (ActiveSession.withPaused s true))) None None None)
           (store w).
Proof.
  intros Hslot Hnone Hok.
  assert (H0 : fault h (calls w) = None)
    by (rewrite <- (Nat.add_0_r (calls w)); apply Hok; lia).
  assert (H1 : fault h (S (calls w)) = None)
    by (rewrite <- Nat.add_1_r; apply Hok; lia).
  assert (H2 : fault h (S (S (calls w))) = None)
    by (replace (S (S (calls w))) with (calls w + 2) by lia; apply Hok; lia).
  unfold BackgroundService.handleWindowFocusChanged, tryCatch, bind.
  rewrite (getActiveSession_ok h w H0), Hslot.
  change (default None (Some (Some s))) with (Some s). cbv beta iota.
  rewrite Hnone.
  rewrite (pauseSession_written h (Browser.called w) s Hslot H1 H2).
  eexists. split; reflexivity.
Qed.

Lemma focus_lost_pauses_witness :
  Num.strictEq (Num.ofZ (-1)) (WINDOW_ID_NONE Scenario.browser) = true
  /\ exists w',
       BackgroundService.handleWindowFocusChanged Scenario.browser (Num.ofZ (-1))
         Scenario.reliable Scenario.tracking = (Ok tt, w')
       /\ persistedSessions (store w')
          = [ActiveSession.withPaused Scenario.visit true].
Proof.
  split; [reflexivity |].
  destruct (focus_lost_pauses Scenario.browser Scenario.reliable Scenario.tracking
              (Num.ofZ (-1)) Scenario.visit eq_refl eq_refl)
    as (w' & Hrun & Hstore).
  { intros k _. reflexivity. }
  exists w'. split; [exact Hrun |]. rewrite Hstore. reflexivity.
Defined.

(** X28: When a window gains focus, [handleWindowFocusChanged] resumes the
    session only if it is paused: a paused session is stored again with
    [isPaused = false]; a session that is not paused is left alone, and
    the storage area is asked for nothing but the one read. *)
Theorem focus_gained_resumes_only_paused t h w windowId (s : ActiveSession.t) :
  StorageSchema.activeSession' (store w) = Some (Some s) ->
  Num.strictEq windowId (WINDOW_ID_NONE t) = false ->
  (forall k, k < 3 -> fault h (calls w + k) = None) ->
  exists w',
    BackgroundService.handleWindowFocusChanged t windowId h w = (Ok tt, w')
    /\ match ActiveSession.isPaused s with
       | Some true =>
           store w'
           = StorageSchema.assign
               (StorageSchema.mkPartial None
                  (Some (Some (ActiveSession.withPaused s false))) None None None)
               (store w)
       | _ => w' = Browser.called w
       end.
Proof.
  intros Hslot Hnone Hok.
  assert (H0 : fault h (calls w) = None)
    by (rewrite <- (Nat.add_0_r (calls w)); apply Hok; lia).
  assert (H1 : fault h (S (calls w)) = None)
    by (rewrite <- Nat.add_1_r; apply Hok; lia).
  assert (H2 : fault h (S (S (calls w))) = None)
    by (replace (S (S (calls w))) with (calls w + 2) by lia; apply Hok; lia).
  unfold BackgroundService.handleWindowFocusChanged, tryCatch, bind.
  rewrite (getActiveSession_ok h w H0), Hslot.
  change (default None (Some (Some s))) with (Some s). cbv beta iota.
  rewrite Hnone.
  destruct (ActiveSession.isPaused s) as [[|] |] eqn:Ep.
  - rewrite (resumeSession_written h (Browser.called w) s Hslot H1 H2).
    eexists. split; reflexivity.
  - eexists. split; reflexivity.
  - eexists. split; reflexivity.
Qed.

Lemma focus_gained_resumes_only_paused_witness :
  Num.strictEq (Num.ofZ 1) (WINDOW_ID_NONE Scenario.browser) = false
  /\ BackgroundService.handleWindowFocusChanged Scenario.browser (Num.ofZ 1)
       Scenario.reliable Scenario.tracking
     = (Ok tt, Browser.called Scenario.tracking).
Proof.
  split; [reflexivity |].
  destruct (focus_gained_resumes_only_paused Scenario.browser Scenario.reliable
              Scenario.tracking (Num.ofZ 1) Scenario.visit eq_refl eq_refl)
    as (w' & Hrun & Hw).
  { intros k _. reflexivity. }
  cbn in Hw. rewrite Hrun, Hw. reflexivity.
Defined.

(** X29: [shutdown] stops the running session: with a session in the slot and
    no storage call rejected, it resolves with the visit folded into the
    record of its domain and the slot [null]; with no session it does
    nothing but the one read.  Here [getDomainData] finds for the domain
    of the session a complete record or nothing ([prior]). *)
Theorem shutdown_stops_session h w :
  (forall k, k < 6 -> fault h (calls w + k) = None) ->
  match default None (StorageSchema.activeSession' (store w)) with
  | Some s =>
      forall prior : option DomainData.t,
        storedEntry (store w) (ActiveSession.domain s)
        = DomainData.whole <$> prior ->
        let completed := completedAt s (performanceNow h (perfReads w)) in
        let date :=
          isoDate h (dateNow h (match prior with
                                | Some _ => dateReads w
                                | None => S (dateReads w)
                                end)) in
        exists w' stamp,
          BackgroundService.shutdown h w = (Ok tt, w')
          /\ persistedSessions (store w') = []
          /\ storedDomains (store w') !! ActiveSession.domain s
             = Some (DomainData.whole (folded prior date completed stamp))
  | None => BackgroundService.shutdown h w = (Ok tt, Browser.called w)
  end.
Proof.
  intros Hok.
  assert (H0 : fault h (calls w) = None)
    by (rewrite <- (Nat.add_0_r (calls w)); apply Hok; lia).
  unfold BackgroundService.shutdown, tryCatch, bind.
  rewrite (getActiveSession_ok h w H0).
  destruct (StorageSchema.activeSession' (store w)) as [[s |] |] eqn:Hslot;
    try reflexivity.
  change (default None (Some (Some s))) with (Some s). cbv beta iota zeta.
  intros prior Hentry.
  destruct (stopSession_run h (Browser.called w) s prior Hslot Hentry)
    as (w' & stamp & Hstop & Hstore & _).
  { intros k Hk. cbn. replace (S (calls w + k)) with (calls w + (1 + k)) by lia.
    apply Hok. lia. }
  cbn in Hstop, Hstore. rewrite Hstop.
  exists w', stamp. split; [reflexivity |]. rewrite Hstore.
  split; [reflexivity |].
  unfold storedDomains at 1. cbn. apply lookup_insert_eq.
Qed.

Lemma shutdown_stops_session_witness :
  (forall k, k < 6 -> fault Scenario.reliable (calls Scenario.visited + k) = None)
  /\ exists w',
       BackgroundService.shutdown Scenario.reliable Scenario.visited = (Ok tt, w')
       /\ persistedSessions (store w') = [].
Proof.
  assert (Hok : forall k, k < 6 ->
                  fault Scenario.reliable (calls Scenario.visited + k) = None)
    by (intros k _; reflexivity).
  split; [exact Hok |].
  pose proof (shutdown_stops_session Scenario.reliable Scenario.visited Hok) as H.
  cbn [default from_option id store Scenario.visited StorageSchema.activeSession'] in H.
  destruct (H (Some (DomainData.mk (Num.ofZ 5000) []
                       {["2022-01-01" := Num.ofZ 2000]} (Num.ofZ 1640995100000)))
              eq_refl)
    as (w' & stamp & Hrun & Hslot & _).
  exists w'. split; [exact Hrun | exact Hslot].
Defined.
